(** * SoCo: a SOAP/UPnP control client for a Sonos speaker (soco.py)

    A shallow embedding of [src/soco.py] and the properties of its
    request/response contract.

    Modelling conventions.
    - The code is CPython 2 code: the body returned by [requests] is a byte
      string ([str]) that is compared with [str] literals.  Strings are
      therefore byte strings, modelled by [String.string].
    - A method of the class is a computation in the monad [M]: it reads and
      may write the instance ([self]), it appends to the log of HTTP requests
      that left the process, and it either returns a Python value or raises
      an exception.
    - The two libraries the code calls are outside the repository.  The HTTP
      peer (the speaker) and the XML parser are parameters of the
      development; [findtext] and the element tree it walks are modelled
      after the ElementTree documentation.  A small XML parser for a
      fragment of XML 1.0 with namespaces is provided to run the methods on
      concrete responses. *)

From Stdlib Require Import String Ascii List ZArith Lia Bool.
From Stdlib Require Import DecimalString DecimalPos.
Import ListNotations.

Local Open Scope string_scope.

(** ** Python values *)

Module Py.

(** The literals of soco.py are full of double quotes.  They are written
    here with an apostrophe where the source has a double quote, and
    [lit] puts the double quotes back; no literal of soco.py contains an
    apostrophe or a backslash. *)
Definition dquote : ascii := ascii_of_nat 34.
Definition apostrophe : ascii := ascii_of_nat 39.

Fixpoint lit (s : string) : string :=
  match s with
  | EmptyString => EmptyString
  | String c r =>
      String (if Ascii.eqb c apostrophe then dquote else c) (lit r)
  end.

(** The values soco.py passes around: [None], [True]/[False], integers,
    byte strings and the dictionary of [get_current_track_info]. *)
#[warnings="-register-all"]
Inductive value : Type :=
| None_
| Bool_ (b : bool)
| Int_ (z : Z)
| Str_ (s : string)
| Dict_ (d : list (string * value)).

(** [x is True]: identity with the singleton [True]. *)
Definition is_True (x : value) : bool :=
  match x with
  | Bool_ true => true
  | _ => false
  end.

(** The result of [findtext] is a string or [None]. *)
Definition of_findtext (r : option string) : value :=
  match r with
  | Some s => Str_ s
  | None => None_
  end.

(** [d[k] = v] on a dictionary kept in insertion order. *)
Fixpoint setitem (d : list (string * value)) (k : string) (v : value)
  : list (string * value) :=
  match d with
  | [] => [(k, v)]
  | (k', v') :: r =>
      if String.eqb k k' then (k, v) :: r else (k', v') :: setitem r k v
  end.

(** The exceptions that can leave a method of the class. *)
Inductive exn : Type :=
| ParseError
| AttributeError (message : string)
| ValueError
| ConnectionError.

(** *** [repr] of an integer

    A plain [int] prints as its decimal numeral; beyond [sys.maxint]
    CPython 2 holds a [long], which prints with a trailing [L]. *)
Definition sys_maxint : Z := 9223372036854775807.

Definition decimal (z : Z) : string := NilZero.string_of_int (Z.to_int z).

Definition repr (z : Z) : string :=
  if ((- sys_maxint - 1 <=? z) && (z <=? sys_maxint))%Z
  then decimal z
  else decimal z ++ "L".

(** *** [int] of a string

    Base 10: blanks are stripped on both sides, an optional sign follows
    (CPython 2 allows blanks after it), then at least one digit and
    nothing else.  Anything else raises [ValueError] ([None] here). *)
Definition isspace (c : ascii) : bool :=
  let n := nat_of_ascii c in
  (Nat.eqb n 32 || ((9 <=? n) && (n <=? 13)))%nat.

Definition isdigit (c : ascii) : bool :=
  let n := nat_of_ascii c in ((48 <=? n) && (n <=? 57))%nat.

Fixpoint lstrip (s : string) : string :=
  match s with
  | String c r => if isspace c then lstrip r else s
  | EmptyString => s
  end.

(** Digits read left to right; trailing blanks allowed. *)
Fixpoint digits (acc : Z) (seen : bool) (s : string) : option Z :=
  match s with
  | EmptyString => if seen then Some acc else None
  | String c r =>
      if isdigit c
      then digits (10 * acc + Z.of_nat (nat_of_ascii c - 48)) true r
      else if seen && isspace c
           then match lstrip r with
                | EmptyString => Some acc
                | _ => None
                end
           else None
  end.

Definition int (s : string) : option Z :=
  match lstrip s with
  | String "-" r => option_map Z.opp (digits 0 false (lstrip r))
  | String "+" r => digits 0 false (lstrip r)
  | r => digits 0 false r
  end.

(** Substring test, [sub in s]. *)
Fixpoint startswith (p s : string) : bool :=
  match p, s with
  | EmptyString, _ => true
  | String a p', String b s' => Ascii.eqb a b && startswith p' s'
  | String _ _, EmptyString => false
  end.

Fixpoint contains (s sub : string) : bool :=
  startswith sub s ||
  match s with
  | EmptyString => false
  | String _ r => contains r sub
  end.

End Py.

(** ** The element tree of [xml.etree] *)

Module ElementTree.

(** An element: its tag (a namespaced tag is spelled [{uri}local]), its
    attributes, the character data before its first child ([None] when
    there is none), its children, and the character data after its end
    tag. *)
#[warnings="-register-all"]
Inductive Element : Type :=
| Elem (tag : string) (attrib : list (string * string))
       (text : option string) (children : list Element)
       (tail : option string).

Definition tag (e : Element) : string :=
  match e with Elem t _ _ _ _ => t end.

Definition attrib (e : Element) : list (string * string) :=
  match e with Elem _ a _ _ _ => a end.

Definition text (e : Element) : option string :=
  match e with Elem _ _ x _ _ => x end.

Definition children (e : Element) : list Element :=
  match e with Elem _ _ _ c _ => c end.

Definition tail (e : Element) : option string :=
  match e with Elem _ _ _ _ x => x end.

(** [e.iter()]: the element, then its descendants, in document order. *)
Fixpoint iter (e : Element) : list Element :=
  match e with
  | Elem _ _ _ c _ => e :: flat_map iter c
  end.

(** The paths of soco.py all have the shape [.//TAG], with [TAG] a plain or
    a [{uri}local] tag; only that shape is modelled, and
    [descendant_tag] is [None] on every other path. *)
Definition is_letter (c : ascii) : bool :=
  let n := nat_of_ascii c in
  (((65 <=? n) && (n <=? 90)) || ((97 <=? n) && (n <=? 122)))%nat.

Definition is_word (c : ascii) : bool :=
  is_letter c || Py.isdigit c || Ascii.eqb c "_" || Ascii.eqb c "-".

Fixpoint all_chars (p : ascii -> bool) (s : string) : bool :=
  match s with
  | EmptyString => true
  | String c r => p c && all_chars p r
  end.

Fixpoint span (p : ascii -> bool) (s : string) : string * string :=
  match s with
  | EmptyString => (EmptyString, EmptyString)
  | String c r =>
      if p c
      then let (a, b) := span p r in (String c a, b)
      else (EmptyString, s)
  end.

Definition simple_tag (t : string) : bool :=
  match t with
  | String "{" r =>
      let (uri, l) := span (fun c => negb (Ascii.eqb c "}")) r in
      match uri, l with
      | String _ _, String "}" (String c l') => all_chars is_word (String c l')
      | _, _ => false
      end
  | String _ _ => all_chars is_word t
  | EmptyString => false
  end.

Definition descendant_tag (path : string) : option string :=
  match path with
  | String "." (String "/" (String "/" t)) =>
      if simple_tag t then Some t else None
  | _ => None
  end.

(** [e.findtext(path)] with the default [None]: the text of the first
    descendant of [e] (not [e] itself) carrying the tag, the empty string
    when that element has no text, and [None] when there is no such
    element. *)
Definition findtext (e : Element) (path : string) : option string :=
  match descendant_tag path with
  | Some t =>
      match find (fun x => String.eqb (tag x) t) (flat_map iter (children e)) with
      | Some x =>
          Some (match text x with Some s => s | None => EmptyString end)
      | None => None
      end
  | None => None
  end.

End ElementTree.

(** ** A parser for a fragment of XML

    [XML.fromstring] is the expat parser behind ElementTree.  The parser
    below covers the XML that a speaker sends: elements, attributes,
    namespace declarations, character data and the five predefined
    entities, in ASCII.  Its answer has three shapes: the tree, [Malformed]
    when the document is not well-formed (expat raises [ParseError]), and
    [Unsupported] when the document leaves the fragment (declarations,
    comments, CDATA sections, processing instructions, character
    references, carriage returns, bytes above 127, ...), about which the
    model says nothing. *)

Module Expat.

Import ElementTree.

Inductive parsed (A : Type) : Type :=
| Parsed (a : A)
| Malformed
| Unsupported.

Arguments Parsed {A} a.
Arguments Malformed {A}.
Arguments Unsupported {A}.

Definition bind {A B : Type} (m : parsed A) (f : A -> parsed B) : parsed B :=
  match m with
  | Parsed a => f a
  | Malformed => Malformed
  | Unsupported => Unsupported
  end.

Notation "'let*' x ':=' m 'in' k" := (bind m (fun x => k))
  (at level 10, x pattern, m at level 100, k at level 200).

Definition is_blank (c : ascii) : bool :=
  let n := nat_of_ascii c in (Nat.eqb n 32 || Nat.eqb n 9 || Nat.eqb n 10)%nat.

Definition is_name_start (c : ascii) : bool :=
  is_letter c || Ascii.eqb c "_".

Definition is_name_char (c : ascii) : bool :=
  is_name_start c || Py.isdigit c
  || Ascii.eqb c "-" || Ascii.eqb c "." || Ascii.eqb c ":".

(** Printable ASCII, 32 to 126. *)
Definition is_printable (c : ascii) : bool :=
  let n := nat_of_ascii c in ((32 <=? n) && (n <=? 126))%nat.

(** A character that cannot stand where the parser is: a syntax error when
    it is a printable character or a blank, outside the fragment
    otherwise. *)
Definition stray {A : Type} (c : ascii) : parsed A :=
  if is_printable c || is_blank c then Malformed else Unsupported.

(** The predefined entities: what follows the ampersand, the character it
    stands for and the number of characters to skip. *)
Definition entity (s : string) : option (ascii * nat) :=
  if Py.startswith "lt;" s then Some ("<"%char, 3)
  else if Py.startswith "gt;" s then Some (">"%char, 3)
  else if Py.startswith "amp;" s then Some ("&"%char, 4)
  else if Py.startswith "quot;" s then Some (Py.dquote, 5)
  else if Py.startswith "apos;" s then Some (Py.apostrophe, 5)
  else None.

(** Character data with its entities replaced.  [plain] tells the
    characters that stand for themselves. *)
Fixpoint decode (plain : ascii -> bool) (skip : nat) (s : string)
  : parsed string :=
  match s with
  | EmptyString => Parsed EmptyString
  | String c r =>
      match skip with
      | S k => decode plain k r
      | O =>
          if Ascii.eqb c "&"
          then match entity r with
               | Some (x, n) =>
                   let* t := decode plain n r in Parsed (String x t)
               | None => Unsupported
               end
          else if plain c
               then let* t := decode plain 0 r in Parsed (String c t)
               else Unsupported
      end
  end.

(** In content: printable characters, tabs and line feeds; a closing
    square bracket could start the forbidden []]>] and is left out. *)
Definition plain_text (c : ascii) : bool :=
  (is_printable c || is_blank c)
  && negb (Ascii.eqb c "<") && negb (Ascii.eqb c "&") && negb (Ascii.eqb c "]").

(** In an attribute value: printable characters (tabs and line feeds would
    be normalised). *)
Definition plain_value (c : ascii) : bool :=
  is_printable c && negb (Ascii.eqb c "<") && negb (Ascii.eqb c "&").

Definition nonempty (s : string) : option string :=
  match s with
  | EmptyString => None
  | _ => Some s
  end.

(** The attributes of a start tag, from right after the element name to
    the end of the tag: the attributes as written, whether the tag is an
    empty-element tag, and the rest of the input. *)
Fixpoint attributes (fuel : nat) (s : string)
  : parsed (list (string * string) * bool * string) :=
  match fuel with
  | O => Unsupported
  | S fuel' =>
      let (blanks, r) := span is_blank s in
      match r with
      | EmptyString => Malformed
      | String ">" r' => Parsed ([], false, r')
      | String "/" (String ">" r') => Parsed ([], true, r')
      | String "/" _ => Malformed
      | String c _ =>
          match blanks with
          | EmptyString => stray c
          | _ =>
              if is_name_start c then
                let (name, r1) := span is_name_char r in
                let (_, r2) := span is_blank r1 in
                match r2 with
                | EmptyString => Malformed
                | String "=" r3 =>
                    let (_, r4) := span is_blank r3 in
                    match r4 with
                    | EmptyString => Malformed
                    | String q r5 =>
                        if Ascii.eqb q Py.dquote || Ascii.eqb q Py.apostrophe
                        then
                          let (raw, r6) :=
                            span (fun x => negb (Ascii.eqb x q)) r5 in
                          match r6 with
                          | EmptyString => Malformed
                          | String _ r7 =>
                              if Py.contains raw "<" then Malformed
                              else
                                let* v := decode plain_value 0 raw in
                                let* (more, empty, rest) :=
                                  attributes fuel' r7 in
                                Parsed ((name, v) :: more, empty, rest)
                          end
                        else stray q
                    end
                | String c' _ => stray c'
                end
              else if Ascii.eqb c ":" then Unsupported
              else stray c
          end
      end
  end.

(** *** Namespaces *)

(** The namespaces in scope: the default one and the bound prefixes. *)
Record scope : Type := {
  default_ns : option string;
  prefixes : list (string * string)
}.

Definition no_scope : scope := {| default_ns := None; prefixes := [] |}.

Fixpoint lookup (k : string) (l : list (string * string)) : option string :=
  match l with
  | [] => None
  | (k', v) :: r => if String.eqb k k' then Some v else lookup k r
  end.

Definition lower (c : ascii) : ascii :=
  let n := nat_of_ascii c in
  if ((65 <=? n) && (n <=? 90))%nat then ascii_of_nat (n + 32) else c.

Fixpoint lowercase (s : string) : string :=
  match s with
  | EmptyString => EmptyString
  | String c r => String (lower c) (lowercase r)
  end.

(** Names that begin with [xml], in any case, are reserved; the two
    namespaces that XML binds itself cannot be declared. *)
Definition reserved (name : string) : bool :=
  Py.startswith "xml" (lowercase name).

Definition reserved_uri (u : string) : bool :=
  String.eqb u "http://www.w3.org/XML/1998/namespace"
  || String.eqb u "http://www.w3.org/2000/xmlns/".

Definition is_empty (s : string) : bool :=
  match s with
  | EmptyString => true
  | _ => false
  end.

Definition starts_name (s : string) : bool :=
  match s with
  | String c _ => is_name_start c
  | EmptyString => false
  end.

(** The namespace declarations of a start tag are taken out of its
    attributes and added to the scope. *)
Fixpoint declare (sc : scope) (attrs : list (string * string))
  : parsed (scope * list (string * string)) :=
  match attrs with
  | [] => Parsed (sc, [])
  | (n, v) :: r =>
      if String.eqb n "xmlns" then
        if reserved_uri v then Unsupported
        else declare {| default_ns := nonempty v; prefixes := prefixes sc |} r
      else if Py.startswith "xmlns:" n then
        let p := substring 6 (String.length n - 6) n in
        if negb (starts_name p) || Py.contains p ":" || reserved p
           || is_empty v || reserved_uri v
        then Unsupported
        else declare {| default_ns := default_ns sc;
                        prefixes := (p, v) :: prefixes sc |} r
      else if reserved n then Unsupported
      else
        let* (sc', rest) := declare sc r in
        Parsed (sc', (n, v) :: rest)
  end.

Definition clark (uri local : string) : string :=
  "{" ++ uri ++ "}" ++ local.

(** The tag ElementTree gives to a name as written.  The default namespace
    applies to element names only; an unbound prefix is an error. *)
Definition qualify (sc : scope) (is_element : bool) (q : string)
  : parsed string :=
  if reserved q then Unsupported
  else
    let (p, r) := span (fun c => negb (Ascii.eqb c ":")) q in
    match r with
    | EmptyString =>
        match (if is_element then default_ns sc else None) with
        | Some u => Parsed (clark u q)
        | None => Parsed q
        end
    | String _ l =>
        if starts_name p && starts_name l && negb (Py.contains l ":")
        then match lookup p (prefixes sc) with
             | Some u => Parsed (clark u l)
             | None => Malformed
             end
        else Unsupported
    end.

Fixpoint qualify_all (sc : scope) (attrs : list (string * string))
  : parsed (list (string * string)) :=
  match attrs with
  | [] => Parsed []
  | (n, v) :: r =>
      let* n' := qualify sc false n in
      let* r' := qualify_all sc r in
      Parsed ((n', v) :: r')
  end.

Fixpoint has_duplicates (l : list string) : bool :=
  match l with
  | [] => false
  | x :: r => existsb (String.eqb x) r || has_duplicates r
  end.

(** A start tag [q] with the attributes [raw], read in the scope [sc]:
    the element's tag, its attributes and the scope of its content. *)
Definition open_tag (sc : scope) (q : string) (raw : list (string * string))
  : parsed (string * list (string * string) * scope) :=
  if has_duplicates (map fst raw) then Malformed
  else
    let* (sc', rest) := declare sc raw in
    let* t := qualify sc' true q in
    let* attrs := qualify_all sc' rest in
    if has_duplicates (map fst attrs) then Malformed
    else Parsed (t, attrs, sc').

(** *** Elements and documents *)

Definition set_tail (e : Element) (t : option string) : Element :=
  match e with
  | Elem g a x c _ => Elem g a x c t
  end.

Definition is_markup (c : ascii) : bool :=
  Ascii.eqb c "!" || Ascii.eqb c "?" || Ascii.eqb c ":".

(** [element] reads an element from right after the [<] of its start tag;
    [content] reads the content of the element [q] up to and including its
    end tag, and answers the leading character data, the children and the
    rest of the input.  Every call consumes input, so the length of the
    document is fuel enough. *)
Fixpoint element (fuel : nat) (sc : scope) (s : string) {struct fuel}
  : parsed (Element * string) :=
  match fuel with
  | O => Unsupported
  | S fuel' =>
      let (q, r) := span is_name_char s in
      let* (raw, empty, r1) := attributes (S (String.length r)) r in
      let* (t, attrs, sc') := open_tag sc q raw in
      if (empty : bool) then Parsed (Elem t attrs None [] None, r1)
      else
        let* (x, kids, r2) := content fuel' sc' q r1 in
        Parsed (Elem t attrs x kids None, r2)
  end
with content (fuel : nat) (sc : scope) (q : string) (s : string)
  {struct fuel} : parsed (option string * list Element * string) :=
  match fuel with
  | O => Unsupported
  | S fuel' =>
      let (raw, r) := span (fun c => negb (Ascii.eqb c "<")) s in
      let* x := decode plain_text 0 raw in
      match r with
      | String _ (String "/" r1) =>
          let (name, r2) := span is_name_char r1 in
          let (_, r3) := span is_blank r2 in
          match r3 with
          | String ">" r4 =>
              if String.eqb name q then Parsed (nonempty x, [], r4)
              else Malformed
          | String c _ => stray c
          | EmptyString => Malformed
          end
      | String _ (String c r1) =>
          if is_name_start c then
            let* (child, r2) := element fuel' sc (String c r1) in
            let* (t, more, r3) := content fuel' sc q r2 in
            Parsed (nonempty x, set_tail child t :: more, r3)
          else if is_markup c then Unsupported
          else stray c
      | _ => Malformed
      end
  end.

(** A document: one element, blanks allowed around it. *)
Definition parse (s : string) : parsed Element :=
  let (_, r) := span is_blank s in
  match r with
  | EmptyString => Malformed
  | String "<" (String c r1) =>
      if is_name_start c then
        let* (e, r2) := element (S (String.length s)) no_scope (String c r1) in
        let (_, r3) := span is_blank r2 in
        match r3 with
        | EmptyString => Parsed e
        | String "<" (String c' _) =>
            if is_markup c' then Unsupported else stray c'
        | String c' _ => stray c'
        end
      else if is_markup c then Unsupported
      else stray c
  | String "<" EmptyString => Malformed
  | String c _ => stray c
  end.

(** [XML.fromstring] for the documents of the fragment: the tree, or
    [None] for [ParseError].  The answer [None] on a document that [parse]
    does not support says nothing about expat; the properties below run
    this parser only on documents that [parse] accepts or finds
    malformed. *)
Definition fromstring (s : string) : option Element :=
  match parse s with
  | Parsed e => Some e
  | _ => None
  end.

End Expat.

(** ** The HTTP library *)

Module Requests.

(** What [requests.post(url, data=..., headers=...)] puts on the wire. *)
Record Request : Type := {
  verb : string;
  url : string;
  data : string;
  headers : list (string * string)
}.

(** The object [requests.post] returns; soco.py reads its [content]. *)
Record Response : Type := { content : string }.

(** The peer answers with a body, whatever the HTTP status, or the request
    fails in the transport and [requests] raises. *)
Inductive Reply : Type :=
| Answer (r : Response)
| Failure.

End Requests.

(** ** The class [SoCo] *)

Module SoCo.

Import Py ElementTree Requests.

(** An instance: [__init__] gives it its only attribute. *)
Record instance : Type := { speaker_ip : string }.

Definition __init__ (speaker_ip : string) : instance :=
  {| speaker_ip := speaker_ip |}.

(** *** The monad of methods

    A method runs on the instance and on the log of the requests sent so
    far, and leaves a result or an exception, the instance and the log. *)
Inductive outcome (A : Type) : Type :=
| Return (a : A)
| Raise (e : exn).

Arguments Return {A} a.
Arguments Raise {A} e.

Definition M (A : Type) : Type :=
  instance -> list Request -> outcome A * instance * list Request.

Definition ret {A : Type} (a : A) : M A :=
  fun self log => (Return a, self, log).

Definition raise {A : Type} (e : exn) : M A :=
  fun self log => (Raise e, self, log).

Definition bind {A B : Type} (m : M A) (k : A -> M B) : M B :=
  fun self log =>
    match m self log with
    | (Return a, self', log') => k a self' log'
    | (Raise e, self', log') => (Raise e, self', log')
    end.

Notation "x <- m ;; k" := (bind m (fun x => k))
  (at level 61, m at next level, right associativity).

(** [self.speaker_ip] *)
Definition self_speaker_ip : M string :=
  fun self log => (Return (speaker_ip self), self, log).

(** The three parts of the result of a run. *)
Definition result {A : Type} (r : outcome A * instance * list Request)
  : outcome A := fst (fst r).

Definition instance_after {A : Type} (r : outcome A * instance * list Request)
  : instance := snd (fst r).

Definition log_after {A : Type} (r : outcome A * instance * list Request)
  : list Request := snd r.

Definition TRANSPORT_ENDPOINT : string := "/MediaRenderer/AVTransport/Control".
Definition RENDERING_ENDPOINT : string :=
  "/MediaRenderer/RenderingControl/Control".
Definition DEVICE_ENDPOINT : string := "/DeviceProperties/Control".

Section Methods.

(** The speaker: its reply to a request may depend on the requests it has
    received before. *)
Variable device : list Request -> Request -> Reply.

(** [XML.fromstring]: the tree of a well-formed document, [None] when the
    parser raises [ParseError]. *)
Variable fromstring : string -> option Element.

(** [requests.post(url, data=data, headers=headers)]: the request leaves
    for the speaker, whose reply comes back or fails. *)
Definition requests_post (url : string) (data : string)
  (headers : list (string * string)) : M Response :=
  fun self log =>
    let request :=
      {| verb := "POST"; url := url; data := data; headers := headers |} in
    match device log request with
    | Answer r => (Return r, self, (log ++ [request])%list)
    | Failure => (Raise ConnectionError, self, (log ++ [request])%list)
    end.

(** [XML.fromstring(s)] *)
Definition XML_fromstring (s : string) : M Element :=
  match fromstring s with
  | Some e => ret e
  | None => raise ParseError
  end.

(** [int(s)] *)
Definition int_ (s : string) : M Z :=
  match Py.int s with
  | Some z => ret z
  | None => raise ValueError
  end.

(** [d.encode('utf-8')]: a byte string of the model is its own encoding;
    [None] has no such method. *)
Definition encode (d : option string) : M string :=
  match d with
  | Some s => ret s
  | None => raise (AttributeError "'NoneType' object has no attribute 'encode'")
  end.

(** [d is not '']: CPython has one empty string object, so identity with
    the literal is equality with it; [None] is another object. *)
Definition is_not_empty (d : option string) : bool :=
  match d with
  | Some EmptyString => false
  | _ => true
  end.

(** [__send_command(endpoint, action, body)]: one POST, and the body of
    the response. *)
Definition __send_command (endpoint action body : string) : M string :=
  let headers := [("Content-Type", "text/xml"); ("SOAPACTION", action)] in
  let soap :=
    lit "<s:Envelope xmlns:s='http://schemas.xmlsoap.org/soap/envelope/' s:encodingStyle='http://schemas.xmlsoap.org/soap/encoding/'><s:Body>" ++ body ++ "</s:Body></s:Envelope>" in
  ip <- self_speaker_ip ;;
  r <- requests_post ("http://" ++ ip ++ ":1400" ++ endpoint) soap headers ;;
  ret (content r).

(** [__parse_error(response)]: the UPnP error code of a fault, or the
    response itself when it carries none. *)
Definition __parse_error (response : string) : M value :=
  error <- XML_fromstring response ;;
  let errorCode :=
    findtext error ".//{urn:schemas-upnp-org:control-1-0}errorCode" in
  match errorCode with
  | Some code => n <- int_ code ;; ret (Int_ n)
  | None => ret (Str_ response)
  end.

(** [self.parse(response)]: neither the class nor [__init__] defines an
    attribute [parse], so the lookup raises before anything is called. *)
Definition parse (response : string) : M value :=
  raise (AttributeError "'SoCo' object has no attribute 'parse'").

(** [play()]: start playing the selected track. *)
Definition play : M value :=
  let action := lit "'urn:schemas-upnp-org:service:AVTransport:1#Play'" in
  let body :=
    lit "<u:Play xmlns:u='urn:schemas-upnp-org:service:AVTransport:1'><InstanceID>0</InstanceID><Speed>1</Speed></u:Play>" in
  response <- __send_command TRANSPORT_ENDPOINT action body ;;
  if response =? lit "<s:Envelope xmlns:s='http://schemas.xmlsoap.org/soap/envelope/' s:encodingStyle='http://schemas.xmlsoap.org/soap/encoding/'><s:Body><u:PlayResponse xmlns:u='urn:schemas-upnp-org:service:AVTransport:1'></u:PlayResponse></s:Body></s:Envelope>"
  then ret (Bool_ true)
  else __parse_error response.

(** [pause()]: pause the track that is playing. *)
Definition pause : M value :=
  let action := lit "'urn:schemas-upnp-org:service:AVTransport:1#Pause'" in
  let body :=
    lit "<u:Pause xmlns:u='urn:schemas-upnp-org:service:AVTransport:1'><InstanceID>0</InstanceID><Speed>1</Speed></u:Pause>" in
  response <- __send_command TRANSPORT_ENDPOINT action body ;;
  if response =? lit "<s:Envelope xmlns:s='http://schemas.xmlsoap.org/soap/envelope/' s:encodingStyle='http://schemas.xmlsoap.org/soap/encoding/'><s:Body><u:PauseResponse xmlns:u='urn:schemas-upnp-org:service:AVTransport:1'></u:PauseResponse></s:Body></s:Envelope>"
  then ret (Bool_ true)
  else __parse_error response.

(** [stop()]: stop the track that is playing. *)
Definition stop : M value :=
  let action := lit "'urn:schemas-upnp-org:service:AVTransport:1#Stop'" in
  let body :=
    lit "<u:Stop xmlns:u='urn:schemas-upnp-org:service:AVTransport:1'><InstanceID>0</InstanceID><Speed>1</Speed></u:Stop>" in
  response <- __send_command TRANSPORT_ENDPOINT action body ;;
  if response =? lit "<s:Envelope xmlns:s='http://schemas.xmlsoap.org/soap/envelope/' s:encodingStyle='http://schemas.xmlsoap.org/soap/encoding/'><s:Body><u:StopResponse xmlns:u='urn:schemas-upnp-org:service:AVTransport:1'></u:StopResponse></s:Body></s:Envelope>"
  then ret (Bool_ true)
  else __parse_error response.

(** [next()]: go to the next track. *)
Definition next : M value :=
  let action := lit "'urn:schemas-upnp-org:service:AVTransport:1#Next'" in
  let body :=
    lit "<u:Next xmlns:u='urn:schemas-upnp-org:service:AVTransport:1'><InstanceID>0</InstanceID><Speed>1</Speed></u:Next>" in
  response <- __send_command TRANSPORT_ENDPOINT action body ;;
  if response =? lit "<s:Envelope xmlns:s='http://schemas.xmlsoap.org/soap/envelope/' s:encodingStyle='http://schemas.xmlsoap.org/soap/encoding/'><s:Body><u:NextResponse xmlns:u='urn:schemas-upnp-org:service:AVTransport:1'></u:NextResponse></s:Body></s:Envelope>"
  then ret (Bool_ true)
  else __parse_error response.

(** [previous()]: go back to the previous track. *)
Definition previous : M value :=
  let action := lit "'urn:schemas-upnp-org:service:AVTransport:1#Previous'" in
  let body :=
    lit "<u:Previous xmlns:u='urn:schemas-upnp-org:service:AVTransport:1'><InstanceID>0</InstanceID><Speed>1</Speed></u:Previous>" in
  response <- __send_command TRANSPORT_ENDPOINT action body ;;
  if response =? lit "<s:Envelope xmlns:s='http://schemas.xmlsoap.org/soap/envelope/' s:encodingStyle='http://schemas.xmlsoap.org/soap/encoding/'><s:Body><u:PreviousResponse xmlns:u='urn:schemas-upnp-org:service:AVTransport:1'></u:PreviousResponse></s:Body></s:Envelope>"
  then ret (Bool_ true)
  else __parse_error response.

(** [mute(mute)]: mute the speaker when [mute is True], unmute it
    otherwise. *)
Definition mute (mute : value) : M value :=
  let mute_value := if is_True mute then "1" else "0" in
  let action := lit "'urn:schemas-upnp-org:service:RenderingControl:1#SetMute'" in
  let body :=
    lit "<u:SetMute xmlns:u='urn:schemas-upnp-org:service:RenderingControl:1'><InstanceID>0</InstanceID><Channel>Master</Channel><DesiredMute>" ++ mute_value ++ "</DesiredMute></u:SetMute>" in
  response <- __send_command RENDERING_ENDPOINT action body ;;
  if response =? lit "<s:Envelope xmlns:s='http://schemas.xmlsoap.org/soap/envelope/' s:encodingStyle='http://schemas.xmlsoap.org/soap/encoding/'><s:Body><u:SetMuteResponse xmlns:u='urn:schemas-upnp-org:service:RenderingControl:1'></u:SetMuteResponse></s:Body></s:Envelope>"
  then ret (Bool_ true)
  else parse response.

(** [set_volume(volume)], for a Python [int]; the value is not checked. *)
Definition set_volume (volume : Z) : M value :=
  let action := lit "'urn:schemas-upnp-org:service:RenderingControl:1#SetVolume'" in
  let body :=
    lit "<u:SetVolume xmlns:u='urn:schemas-upnp-org:service:RenderingControl:1'><InstanceID>0</InstanceID><Channel>Master</Channel><DesiredVolume>" ++ repr volume ++ "</DesiredVolume></u:SetVolume>" in
  response <- __send_command RENDERING_ENDPOINT action body ;;
  if response =? lit "<s:Envelope xmlns:s='http://schemas.xmlsoap.org/soap/envelope/' s:encodingStyle='http://schemas.xmlsoap.org/soap/encoding/'><s:Body><u:SetVolumeResponse xmlns:u='urn:schemas-upnp-org:service:RenderingControl:1'></u:SetVolumeResponse></s:Body></s:Envelope>"
  then ret (Bool_ true)
  else __parse_error response.

(** [status_light(led_on)]: turn the status light on when
    [led_on is True], off otherwise. *)
Definition status_light (led_on : value) : M value :=
  let led_state := if is_True led_on then "On" else "Off" in
  let action := lit "'urn:schemas-upnp-org:service:DeviceProperties:1#SetLEDState'" in
  let body :=
    lit "<u:SetLEDState xmlns:u='urn:schemas-upnp-org:service:DeviceProperties:1'><DesiredLEDState>" ++ led_state ++ "</DesiredLEDState>" in
  response <- __send_command DEVICE_ENDPOINT action body ;;
  if response =? lit "<s:Envelope xmlns:s='http://schemas.xmlsoap.org/soap/envelope/' s:encodingStyle='http://schemas.xmlsoap.org/soap/encoding/'><s:Body><u:SetLEDStateResponse xmlns:u='urn:schemas-upnp-org:service:DeviceProperties:1'></u:SetLEDStateResponse></s:Body></s:Envelope>"
  then ret (Bool_ true)
  else parse response.

(** [get_current_track_info()]: the dictionary of the track that is
    playing. *)
Definition get_current_track_info : M value :=
  let action := lit "'urn:schemas-upnp-org:service:AVTransport:1#GetPositionInfo'" in
  let body :=
    lit "<u:GetPositionInfo xmlns:u='urn:schemas-upnp-org:service:AVTransport:1'><InstanceID>0</InstanceID><Channel>Master</Channel></u:GetPositionInfo>" in
  response <- __send_command TRANSPORT_ENDPOINT action body ;;
  dom <- XML_fromstring response ;;
  let track := [] in
  let track :=
    setitem track "playlist_position" (of_findtext (findtext dom ".//Track")) in
  let track :=
    setitem track "duration" (of_findtext (findtext dom ".//TrackDuration")) in
  let d := findtext dom ".//TrackMetaData" in
  if is_not_empty d then
    bytes <- encode d ;;
    metadata <- XML_fromstring bytes ;;
    let track :=
      setitem track "title"
        (of_findtext (findtext metadata ".//{http://purl.org/dc/elements/1.1/}title")) in
    let track :=
      setitem track "artist"
        (of_findtext (findtext metadata ".//{http://purl.org/dc/elements/1.1/}creator")) in
    let track :=
      setitem track "album"
        (of_findtext (findtext metadata ".//{urn:schemas-upnp-org:metadata-1-0/upnp/}album")) in
    ret (Dict_ track)
  else
    let track := setitem track "title" (Str_ EmptyString) in
    let track := setitem track "artist" (Str_ EmptyString) in
    let track := setitem track "album" (Str_ EmptyString) in
    ret (Dict_ track).

End Methods.

(** *** The operations of the class *)

Inductive mutating : Type :=
| Play
| Pause
| Stop
| Next
| Previous
| Mute (mute : value)
| SetVolume (volume : Z)
| StatusLight (led_on : value).

Inductive operation : Type :=
| Mutating (m : mutating)
| GetCurrentTrackInfo.

Section Calls.

Variable device : list Request -> Request -> Reply.
Variable fromstring : string -> option Element.

Definition call_mutating (m : mutating) : M value :=
  match m with
  | Play => play device fromstring
  | Pause => pause device fromstring
  | Stop => stop device fromstring
  | Next => next device fromstring
  | Previous => previous device fromstring
  | Mute x => mute device x
  | SetVolume v => set_volume device fromstring v
  | StatusLight x => status_light device x
  end.

Definition call (op : operation) : M value :=
  match op with
  | Mutating m => call_mutating m
  | GetCurrentTrackInfo => get_current_track_info device fromstring
  end.

End Calls.

(** *** The wire contract

    The envelope, the services and the actions as the interface
    description lists them, against which the literals of the methods are
    checked. *)

Definition quoted (s : string) : string :=
  String dquote s ++ String dquote EmptyString.

Definition envelope_open : string :=
  "<s:Envelope xmlns:s=" ++ quoted "http://schemas.xmlsoap.org/soap/envelope/"
  ++ " s:encodingStyle=" ++ quoted "http://schemas.xmlsoap.org/soap/encoding/"
  ++ "><s:Body>".

Definition envelope_close : string := "</s:Body></s:Envelope>".

Definition envelope (body : string) : string :=
  envelope_open ++ body ++ envelope_close.

Definition AVTransport : string := "urn:schemas-upnp-org:service:AVTransport:1".
Definition RenderingControl : string :=
  "urn:schemas-upnp-org:service:RenderingControl:1".
Definition DeviceProperties : string :=
  "urn:schemas-upnp-org:service:DeviceProperties:1".

Definition service_of (op : operation) : string :=
  match op with
  | Mutating (Mute _) | Mutating (SetVolume _) => RenderingControl
  | Mutating (StatusLight _) => DeviceProperties
  | _ => AVTransport
  end.

Definition action_of (op : operation) : string :=
  match op with
  | Mutating Play => "Play"
  | Mutating Pause => "Pause"
  | Mutating Stop => "Stop"
  | Mutating Next => "Next"
  | Mutating Previous => "Previous"
  | Mutating (Mute _) => "SetMute"
  | Mutating (SetVolume _) => "SetVolume"
  | Mutating (StatusLight _) => "SetLEDState"
  | GetCurrentTrackInfo => "GetPositionInfo"
  end.

Definition endpoint_of (op : operation) : string :=
  match op with
  | Mutating (Mute _) | Mutating (SetVolume _) =>
      "/MediaRenderer/RenderingControl/Control"
  | Mutating (StatusLight _) => "/DeviceProperties/Control"
  | _ => "/MediaRenderer/AVTransport/Control"
  end.

(** The start tag of the action element of a request body. *)
Definition action_tag (op : operation) : string :=
  "<u:" ++ action_of op ++ " xmlns:u=" ++ quoted (service_of op) ++ ">".

(** The success envelope of a mutating operation: the envelope around an
    empty response element of the action. *)
Definition success_envelope (m : mutating) : string :=
  envelope
    ("<u:" ++ action_of (Mutating m) ++ "Response xmlns:u="
     ++ quoted (service_of (Mutating m))
     ++ "></u:" ++ action_of (Mutating m) ++ "Response>").

End SoCo.

(** * The contract of the client *)

Import Py ElementTree Requests SoCo.

(** The request a method puts on the wire, as the interface description
    gives it: a POST to port 1400 of the speaker, the two headers, and the
    body inside the envelope. *)
Definition wire (self : instance) (op : operation) (body : string) : Request :=
  {| verb := "POST";
     url := "http://" ++ speaker_ip self ++ ":1400" ++ endpoint_of op;
     data := envelope body;
     headers :=
       [("Content-Type", "text/xml");
        ("SOAPACTION", quoted (service_of op ++ "#" ++ action_of op))] |}.

(** The local [body] of each method. *)
Definition body_of (op : operation) : string :=
  match op with
  | Mutating (Mute x) =>
      action_tag op
      ++ "<InstanceID>0</InstanceID><Channel>Master</Channel><DesiredMute>"
      ++ (if is_True x then "1" else "0") ++ "</DesiredMute></u:SetMute>"
  | Mutating (SetVolume v) =>
      action_tag op
      ++ "<InstanceID>0</InstanceID><Channel>Master</Channel><DesiredVolume>"
      ++ repr v ++ "</DesiredVolume></u:SetVolume>"
  | Mutating (StatusLight x) =>
      action_tag op ++ "<DesiredLEDState>"
      ++ (if is_True x then "On" else "Off") ++ "</DesiredLEDState>"
  | GetCurrentTrackInfo =>
      action_tag op
      ++ "<InstanceID>0</InstanceID><Channel>Master</Channel></u:"
      ++ action_of op ++ ">"
  | _ =>
      action_tag op ++ "<InstanceID>0</InstanceID><Speed>1</Speed></u:"
      ++ action_of op ++ ">"
  end.

(** [sub] occurs in [s]. *)
Definition is_infix (sub s : string) : Prop :=
  exists before after, s = before ++ sub ++ after.

(** What a method does when the response is not its success envelope. *)
Definition on_error (fromstring : string -> option Element) (m : mutating)
  : string -> M value :=
  match m with
  | Mute _ | StatusLight _ => parse
  | _ => __parse_error fromstring
  end.

(** The six methods whose error path is [__parse_error]. *)
Definition parses_errors (m : mutating) : bool :=
  match m with
  | Mute _ | StatusLight _ => false
  | _ => true
  end.

(** Once the response is in, a method touches neither the instance nor the
    network: what it leaves depends on the response alone. *)
Definition reads {A : Type} (m : M A) : Prop :=
  forall self log, m self log = (result (m (__init__ EmptyString) []), self, log).

(** An exchange: one request on the wire, and the response read. *)
Definition exchange (device : list Request -> Request -> Reply)
  (op : operation) (read : string -> outcome value) : M value :=
  fun self log =>
    let request := wire self op (body_of op) in
    match device log request with
    | Answer r => (read (content r), self, (log ++ [request])%list)
    | Failure => (Raise ConnectionError, self, (log ++ [request])%list)
    end.

Definition read_mutating (fromstring : string -> option Element)
  (m : mutating) (response : string) : outcome value :=
  if response =? success_envelope m
  then Return (Bool_ true)
  else result (on_error fromstring m response (__init__ EmptyString) []).

(** The canonical decimal numeral of a natural number: digits only, no
    leading zero, and the number as its value. *)
Fixpoint numeral_value (acc : Z) (s : string) : Z :=
  match s with
  | EmptyString => acc
  | String c r => numeral_value (10 * acc + Z.of_nat (nat_of_ascii c - 48)) r
  end.

Definition is_decimal_of (s : string) (n : Z) : bool :=
  all_chars isdigit s
  && match s with
     | EmptyString => false
     | String "0" (String _ _) => false
     | _ => true
     end
  && (numeral_value 0 s =? n)%Z.

(** *** Fixtures *)

(** A speaker that answers every request with the same body. *)
Definition stub (body : string) : list Request -> Request -> Reply :=
  fun _ _ => Answer {| content := body |}.

Definition living_room : instance := __init__ "192.168.1.64".

(** A UPnP fault with error code 801. *)
Definition fault_801 : string :=
  envelope
    ("<s:Fault><faultcode>s:Client</faultcode>"
     ++ "<faultstring>UPnPError</faultstring><detail>"
     ++ "<UPnPError xmlns=" ++ quoted "urn:schemas-upnp-org:control-1-0" ++ ">"
     ++ "<errorCode>801</errorCode></UPnPError></detail></s:Fault>").

(** A well-formed error page that is no UPnP fault. *)
Definition error_page : string :=
  "<HTML><HEAD><TITLE>Error 400</TITLE></HEAD>"
  ++ "<BODY><H1>Error 400</H1><P>Bad Request</P></BODY></HTML>".

(** A body that is no XML at all. *)
Definition plain_error : string := "Internal Server Error".

(** The response to [GetPositionInfo] around a [TrackMetaData] text. *)
Definition position_info (track duration metadata : string) : string :=
  envelope
    ("<u:GetPositionInfoResponse xmlns:u=" ++ quoted AVTransport ++ ">"
     ++ "<Track>" ++ track ++ "</Track>"
     ++ "<TrackDuration>" ++ duration ++ "</TrackDuration>"
     ++ "<TrackMetaData>" ++ metadata ++ "</TrackMetaData>"
     ++ "<TrackURI>x-file-cifs://nas/music/a.mp3</TrackURI>"
     ++ "<RelTime>0:00:10</RelTime></u:GetPositionInfoResponse>").

(** DIDL-Lite metadata, escaped as it travels inside the response: a title
    and a creator, no album. *)
Definition song_a_metadata : string :=
  "&lt;DIDL-Lite"
  ++ " xmlns:dc=&quot;http://purl.org/dc/elements/1.1/&quot;"
  ++ " xmlns:upnp=&quot;urn:schemas-upnp-org:metadata-1-0/upnp/&quot;"
  ++ " xmlns=&quot;urn:schemas-upnp-org:metadata-1-0/DIDL-Lite/&quot;&gt;"
  ++ "&lt;item id=&quot;-1&quot; parentID=&quot;-1&quot;"
  ++ " restricted=&quot;true&quot;&gt;"
  ++ "&lt;dc:title&gt;Song A&lt;/dc:title&gt;"
  ++ "&lt;dc:creator&gt;Artist B&lt;/dc:creator&gt;"
  ++ "&lt;/item&gt;&lt;/DIDL-Lite&gt;".

(** *** Several calls in a row *)

(** A caller that makes the calls of [ops] one after the other on the same
    instance and notes what each one returns or raises. *)
Fixpoint call_all (device : list Request -> Request -> Reply)
  (fromstring : string -> option Element) (ops : list operation)
  (self : instance) (log : list Request)
  : list (outcome value) * instance * list Request :=
  match ops with
  | [] => ([], self, log)
  | op :: rest =>
      let first := call device fromstring op self log in
      let '(results, self', log') :=
        call_all device fromstring rest (instance_after first)
          (log_after first) in
      (result first :: results, self', log')
  end.

(** *** The request as the speaker reads it *)

(** The element inside [s:Body], when the data of a request is a
    well-formed envelope whose body holds exactly one element. *)
Definition action_element (data : string) : option Element :=
  match Expat.parse data with
  | Expat.Parsed (Elem e _ _ [Elem b _ _ [action] _] _) =>
      if (e =? "{http://schemas.xmlsoap.org/soap/envelope/}Envelope")
         && (b =? "{http://schemas.xmlsoap.org/soap/envelope/}Body")
      then Some action
      else None
  | _ => None
  end.

(** The text of an argument of the action, read as an integer. *)
Definition int_argument (action : Element) (path : string) : option Z :=
  match findtext action path with
  | Some s => Py.int s
  | None => None
  end.

(** The operations whose request is checked below: all but
    [status_light], with the volume in the documented range. *)
Definition documented (op : operation) : bool :=
  match op with
  | Mutating (StatusLight _) => false
  | Mutating (SetVolume v) => ((0 <=? v) && (v <=? 100))%Z
  | _ => true
  end.

(** The request of [op] is a well-formed envelope around the action
    element of [op], which carries [InstanceID] 0. *)
Definition well_formed_request (op : operation) : bool :=
  match action_element (envelope (body_of op)) with
  | Some action =>
      (tag action =? Expat.clark (service_of op) (action_of op))
      && match findtext action ".//InstanceID" with
         | Some s => s =? "0"
         | None => false
         end
  | None => false
  end.

(** The arguments of [set_volume] and [mute] as they come out of the
    request. *)
Definition volume_reads_back (volume : Z) : bool :=
  match action_element (envelope (body_of (Mutating (SetVolume volume)))) with
  | Some action =>
      match int_argument action ".//DesiredVolume",
            findtext action ".//Channel" with
      | Some v, Some channel => (v =? volume)%Z && (channel =? "Master")
      | _, _ => false
      end
  | None => false
  end.

(** The value of the digits of [d] after the digits already read into
    [acc]. *)
Fixpoint digits_value (d : Decimal.uint) (acc : Z) : Z :=
  match d with
  | Decimal.Nil => acc
  | Decimal.D0 l => digits_value l (10 * acc)
  | Decimal.D1 l => digits_value l (10 * acc + 1)
  | Decimal.D2 l => digits_value l (10 * acc + 2)
  | Decimal.D3 l => digits_value l (10 * acc + 3)
  | Decimal.D4 l => digits_value l (10 * acc + 4)
  | Decimal.D5 l => digits_value l (10 * acc + 5)
  | Decimal.D6 l => digits_value l (10 * acc + 6)
  | Decimal.D7 l => digits_value l (10 * acc + 7)
  | Decimal.D8 l => digits_value l (10 * acc + 8)
  | Decimal.D9 l => digits_value l (10 * acc + 9)
  end.

(** *** More fixtures *)

(** A speaker that cannot be reached. *)
Definition unreachable : list Request -> Request -> Reply :=
  fun _ _ => Failure.

(** A fault whose error code element is empty. *)
Definition fault_without_code : string :=
  envelope
    ("<s:Fault><faultcode>s:Client</faultcode>"
     ++ "<faultstring>UPnPError</faultstring><detail>"
     ++ "<UPnPError xmlns=" ++ quoted "urn:schemas-upnp-org:control-1-0" ++ ">"
     ++ "<errorCode></errorCode></UPnPError></detail></s:Fault>").

(** * Properties *)

(** ** Substrings *)

Lemma append_assoc (a b c : string) : (a ++ b) ++ c = a ++ b ++ c.
Proof.
  induction a as [ | x a IH]; cbn; [reflexivity | now rewrite IH].
Qed.

Lemma startswith_append (p r : string) : startswith p (p ++ r) = true.
Proof.
  induction p as [ | c p IH]; cbn; [reflexivity | ].
  now rewrite Ascii.eqb_refl.
Qed.

Lemma startswith_inv (p s : string) :
  startswith p s = true -> exists r, s = p ++ r.
Proof.
  revert s. induction p as [ | c p IH]; intros s H.
  - exists s. reflexivity.
  - destruct s as [ | d s]; cbn in H; [discriminate | ].
    apply andb_true_iff in H. destruct H as [Hc Hp].
    apply Ascii.eqb_eq in Hc. subst d.
    destruct (IH s Hp) as [r Hr]. exists r. cbn. now rewrite <- Hr.
Qed.

Lemma contains_infix (s sub : string) :
  contains s sub = true <-> is_infix sub s.
Proof.
  split.
  - induction s as [ | c s IH]; cbn; intros H.
    + rewrite orb_false_r in H. apply startswith_inv in H.
      destruct H as [r Hr]. exists EmptyString, r. exact Hr.
    + apply orb_true_iff in H. destruct H as [H | H].
      * apply startswith_inv in H. destruct H as [r Hr].
        exists EmptyString, r. exact Hr.
      * destruct (IH H) as [a [b Hab]].
        exists (String c a), b. cbn. now rewrite <- Hab.
  - intros [a [b Hab]]. subst s.
    induction a as [ | c a IH].
    + cbn [append]. destruct (sub ++ b) eqn:E; cbn;
        rewrite <- E, startswith_append; reflexivity.
    + cbn. rewrite IH. apply orb_true_r.
Qed.

Lemma not_contains_not_infix (s sub : string) :
  contains s sub = false -> ~ is_infix sub s.
Proof.
  intros H Hin. apply contains_infix in Hin. congruence.
Qed.


Lemma append_inv_head (a b c : string) : a ++ b = a ++ c -> b = c.
Proof.
  induction a as [ | x a IH]; cbn; intros H; [exact H | ].
  injection H as H. apply IH, H.
Qed.

Lemma length_append (a b : string) :
  String.length (a ++ b) = String.length a + String.length b.
Proof.
  induction a as [ | x a IH]; cbn; [reflexivity | now rewrite IH].
Qed.

Lemma append_inv_tail (a b c : string) : a ++ c = b ++ c -> a = b.
Proof.
  revert b. induction a as [ | x a IH]; intros [ | y b] H; cbn in H.
  - reflexivity.
  - apply (f_equal String.length) in H. cbn in H.
    rewrite length_append in H. lia.
  - apply (f_equal String.length) in H. cbn in H.
    rewrite length_append in H. lia.
  - injection H as Hx H. subst y. f_equal. apply IH, H.
Qed.

(** The envelope determines the body inside it. *)
Lemma envelope_inj (a b : string) : envelope a = envelope b -> a = b.
Proof.
  unfold envelope. intros H.
  apply append_inv_head in H. apply append_inv_tail in H. exact H.
Qed.

(** ** The library models at work *)

Example int_examples :
  map Py.int ["801"; " 801 "; "-7"; "+ 12"; "0012"]
  = [Some 801%Z; Some 801%Z; Some (-7)%Z; Some 12%Z; Some 12%Z]
  /\ map Py.int [EmptyString; "8o1"; "8 1"; "12L"; "-"]
     = [None; None; None; None; None].
Proof. split; reflexivity. Qed.

Example repr_examples :
  map repr [0; 37; 100; -5; 9223372036854775808]%Z
  = ["0"; "37"; "100"; "-5"; "9223372036854775808L"].
Proof. reflexivity. Qed.

(** Text before the first child is the text of the element, text after an
    end tag is the tail of the element it closes. *)
Example parse_text_and_tail :
  Expat.parse (lit "<a x='1'>one<b>two</b>three<c/></a>")
  = Expat.Parsed
      (Elem "a" [("x", "1")] (Some "one")
         [Elem "b" [] (Some "two") [] (Some "three"); Elem "c" [] None [] None]
         None).
Proof. reflexivity. Qed.

Example parse_namespaces :
  Expat.parse (lit "<s:E xmlns:s='urn:s' s:k='v'><q xmlns='urn:d'><r/></q><t/></s:E>")
  = Expat.Parsed
      (Elem "{urn:s}E" [("{urn:s}k", "v")] None
         [Elem "{urn:d}q" [] None [Elem "{urn:d}r" [] None [] None] None;
          Elem "t" [] None [] None]
         None).
Proof. reflexivity. Qed.

Example parse_entities :
  Expat.parse "<a>&lt;b&gt; &amp; &quot;c&quot;</a>"
  = Expat.Parsed (Elem "a" [] (Some (lit "<b> & 'c'")) [] None).
Proof. reflexivity. Qed.

Example parse_malformed :
  map Expat.parse
    ["<a>"; "<a></b>"; "<a/>junk"; "<a/><b/>"; "<p:a/>"; "<a b=1/>";
     lit "<a b='1' b='2'/>"; lit "<a b='<'/>"]
  = repeat Expat.Malformed 8.
Proof. reflexivity. Qed.

Example parse_unsupported :
  map Expat.parse
    ["<?xml version='1.0'?><a/>"; "<a><!-- note --></a>"; "<a>&#65;</a>";
     "<a><![CDATA[x]]></a>"]
  = repeat Expat.Unsupported 4.
Proof. reflexivity. Qed.

(** [findtext] looks below the element, in document order, and tells an
    element without text from no element at all. *)
Example findtext_examples :
  let tree :=
    Elem "r" [] None
      [Elem "x" [] None [Elem "y" [] (Some "deep") [] None] None;
       Elem "y" [] (Some "shallow") [] None;
       Elem "{urn:n}z" [] None [] None]
      None in
  findtext tree ".//y" = Some "deep"
  /\ findtext tree ".//{urn:n}z" = Some EmptyString
  /\ findtext tree ".//r" = None
  /\ findtext tree ".//z" = None.
Proof. repeat split; reflexivity. Qed.

(** ** The methods as exchanges *)

Section Contract.

Variable device : list Request -> Request -> Reply.
Variable fromstring : string -> option Element.

Lemma send_command_run (op : operation) (body : string) self log :
  __send_command device (endpoint_of op)
    (quoted (service_of op ++ "#" ++ action_of op)) body self log =
  match device log (wire self op body) with
  | Answer r => (Return (content r), self, (log ++ [wire self op body])%list)
  | Failure => (Raise ConnectionError, self, (log ++ [wire self op body])%list)
  end.
Proof.
  unfold __send_command, bind, self_speaker_ip, requests_post, ret.
  match goal with
  | |- context [device log ?q] => change q with (wire self op body)
  end.
  destruct (device log (wire self op body)); reflexivity.
Qed.

(** Every mutating method is the same exchange: one request, then the
    comparison with the success envelope. *)
Lemma call_mutating_run (m : mutating) self log :
  call_mutating device fromstring m self log =
  let request := wire self (Mutating m) (body_of (Mutating m)) in
  match device log request with
  | Answer r =>
      if content r =? success_envelope m
      then (Return (Bool_ true), self, (log ++ [request])%list)
      else on_error fromstring m (content r) self (log ++ [request])%list
  | Failure => (Raise ConnectionError, self, (log ++ [request])%list)
  end.
Proof.
  destruct m;
    match goal with
    | |- call_mutating _ _ ?c _ _ = _ =>
        unfold call_mutating, play, pause, stop, next, previous, mute,
          set_volume, status_light;
        cbn zeta; unfold bind at 1;
        match goal with
        | |- context [__send_command device ?e ?a ?b self log] =>
            change (__send_command device e a b self log)
              with (__send_command device (endpoint_of (Mutating c))
                      (quoted (service_of (Mutating c) ++ "#"
                               ++ action_of (Mutating c)))
                      (body_of (Mutating c)) self log)
        end
    end.
  all: rewrite send_command_run.
  all: match goal with
       | |- context [device ?l ?q] => destruct (device l q)
       end; [ | reflexivity ].
  all: match goal with
       | |- (if ?a =? ?x then _ else _) _ _ = (if _ =? ?y then _ else _) =>
           change x with y; destruct (a =? y)
       end; reflexivity.
Qed.


Lemma reads_ret {A : Type} (a : A) : reads (ret a).
Proof. intros self log; reflexivity. Qed.

Lemma reads_raise {A : Type} (e : exn) : reads (@raise A e).
Proof. intros self log; reflexivity. Qed.

Lemma reads_bind {A B : Type} (m : M A) (k : A -> M B) :
  reads m -> (forall a, reads (k a)) -> reads (bind m k).
Proof.
  intros Hm Hk self log. unfold bind.
  rewrite (Hm self log), (Hm (__init__ EmptyString) []).
  destruct (result (m (__init__ EmptyString) [])) as [a | e].
  - apply Hk.
  - reflexivity.
Qed.

Lemma reads_XML_fromstring (s : string) : reads (XML_fromstring fromstring s).
Proof.
  unfold XML_fromstring. destruct (fromstring s).
  - apply reads_ret.
  - apply reads_raise.
Qed.

Lemma reads_int (s : string) : reads (int_ s).
Proof.
  unfold int_. destruct (Py.int s).
  - apply reads_ret.
  - apply reads_raise.
Qed.

Lemma reads_encode (d : option string) : reads (encode d).
Proof.
  destruct d.
  - apply reads_ret.
  - apply reads_raise.
Qed.

Create HintDb reads.

#[local] Hint Resolve reads_ret reads_raise reads_XML_fromstring reads_int
  reads_encode : reads.

#[local] Hint Extern 2 (reads (bind _ _)) =>
  apply reads_bind; [ | intro] : reads.

Lemma reads_parse_error (response : string) :
  reads (__parse_error fromstring response).
Proof.
  unfold __parse_error. apply reads_bind; [auto with reads | ].
  intros error. cbn zeta. destruct (findtext error _); auto with reads.
Qed.

Lemma reads_parse (response : string) : reads (parse response).
Proof. apply reads_raise. Qed.

Lemma reads_on_error (m : mutating) (response : string) :
  reads (on_error fromstring m response).
Proof.
  destruct m; cbn [on_error];
    first [apply reads_parse_error | apply reads_parse].
Qed.

Lemma call_mutating_exchange (m : mutating) self log :
  call_mutating device fromstring m self log =
  exchange device (Mutating m) (read_mutating fromstring m) self log.
Proof.
  rewrite call_mutating_run. unfold exchange, read_mutating. cbn zeta.
  destruct (device log _) as [r | ]; [ | reflexivity].
  destruct (content r =? success_envelope m); [reflexivity | ].
  apply reads_on_error.
Qed.

(** [get_current_track_info] is an exchange too. *)
Lemma track_info_exchange :
  exists read, forall self log,
    get_current_track_info device fromstring self log =
    exchange device GetCurrentTrackInfo read self log.
Proof.
  unfold get_current_track_info. cbn zeta.
  match goal with
  | |- context [bind (__send_command device ?e ?a ?b) ?k] =>
      exists (fun s => result (k s (__init__ EmptyString) []));
      intros self log; unfold bind at 1;
      change (__send_command device e a b self log)
        with (__send_command device (endpoint_of GetCurrentTrackInfo)
                (quoted (service_of GetCurrentTrackInfo ++ "#"
                         ++ action_of GetCurrentTrackInfo))
                (body_of GetCurrentTrackInfo) self log);
      assert (Hk : forall s, reads (k s))
  end.
  - intros s. apply reads_bind; [auto with reads | intros dom].
    destruct (is_not_empty _); auto 6 with reads.
  - rewrite send_command_run. unfold exchange. cbn zeta.
    destruct (device log _) as [r | ]; [ | reflexivity].
    apply Hk.
Qed.

Lemma call_exchange (op : operation) :
  exists read, forall self log,
    call device fromstring op self log = exchange device op read self log.
Proof.
  destruct op as [m | ].
  - exists (read_mutating fromstring m). intros self log. apply call_mutating_exchange.
  - apply track_info_exchange.
Qed.

End Contract.

Section Claims.

Variable device : list Request -> Request -> Reply.
Variable fromstring : string -> option Element.

Lemma sent_request (op : operation) read self log request :
  log_after (exchange device op read self log) = (log ++ [request])%list ->
  request = wire self op (body_of op).
Proof.
  unfold exchange. cbn zeta.
  destruct (device log _); cbn [log_after snd]; intros H;
    apply app_inj_tail in H; destruct H as [_ H]; symmetry; exact H.
Qed.

Lemma log_after_exchange (op : operation) read self log :
  log_after (exchange device op read self log)
  = (log ++ [wire self op (body_of op)])%list.
Proof.
  unfold exchange. cbn zeta. destruct (device log _); reflexivity.
Qed.

Lemma instance_after_exchange (op : operation) read self log :
  instance_after (exchange device op read self log) = self.
Proof.
  unfold exchange. cbn zeta. destruct (device log _); reflexivity.
Qed.

(** C1.  If the body of the response to the request of a mutating operation
    (play, pause, stop, next, previous, mute, set_volume, status_light) is
    equal, byte for byte, to the success envelope of that operation, the
    operation returns [True]. *)
Theorem success_envelope_returns_True (m : mutating) self log request response :
  log_after (call_mutating device fromstring m self log)
    = (log ++ [request])%list ->
  device log request = Answer response ->
  content response = success_envelope m ->
  result (call_mutating device fromstring m self log) = Return (Bool_ true).
Proof.
  rewrite call_mutating_exchange. intros Hlog Hdevice Hbody.
  apply sent_request in Hlog. subst request.
  unfold exchange. cbn zeta. rewrite Hdevice. cbn [result fst].
  unfold read_mutating. rewrite Hbody, String.eqb_refl. reflexivity.
Qed.

Lemma error_path (m : mutating) self log response :
  device log (wire self (Mutating m) (body_of (Mutating m))) = Answer response ->
  content response <> success_envelope m ->
  result (call_mutating device fromstring m self log)
  = result (on_error fromstring m (content response) self log).
Proof.
  intros Hdevice Hbody. rewrite call_mutating_exchange.
  unfold exchange. cbn zeta. rewrite Hdevice. cbn [result fst].
  unfold read_mutating. apply String.eqb_neq in Hbody. rewrite Hbody.
  rewrite (reads_on_error fromstring m (content response) self log).
  reflexivity.
Qed.

(** With a fault that carries an error code, the six methods return the
    code as an integer. *)
Lemma error_code_returned (m : mutating) self log response error code n :
  parses_errors m = true ->
  device log (wire self (Mutating m) (body_of (Mutating m))) = Answer response ->
  content response <> success_envelope m ->
  fromstring (content response) = Some error ->
  findtext error ".//{urn:schemas-upnp-org:control-1-0}errorCode" = Some code ->
  Py.int code = Some n ->
  result (call_mutating device fromstring m self log) = Return (Int_ n).
Proof.
  intros Hm Hdevice Hbody Hparse Hcode Hint.
  rewrite (error_path m self log response Hdevice Hbody).
  destruct m; try discriminate Hm; cbn [on_error];
    unfold __parse_error, bind, XML_fromstring;
    rewrite Hparse; cbn; rewrite Hcode; unfold int_; rewrite Hint;
    reflexivity.
Qed.

(** With a well-formed response that carries no error code, the six
    methods return the response as it came. *)
Lemma raw_response_returned (m : mutating) self log response error :
  parses_errors m = true ->
  device log (wire self (Mutating m) (body_of (Mutating m))) = Answer response ->
  content response <> success_envelope m ->
  fromstring (content response) = Some error ->
  findtext error ".//{urn:schemas-upnp-org:control-1-0}errorCode" = None ->
  result (call_mutating device fromstring m self log)
  = Return (Str_ (content response)).
Proof.
  intros Hm Hdevice Hbody Hparse Hcode.
  rewrite (error_path m self log response Hdevice Hbody).
  destruct m; try discriminate Hm; cbn [on_error];
    unfold __parse_error, bind, XML_fromstring;
    rewrite Hparse; cbn; rewrite Hcode; reflexivity.
Qed.

(** A response that the parser rejects makes the six methods raise. *)
Lemma unparseable_response_raises (m : mutating) self log response :
  parses_errors m = true ->
  device log (wire self (Mutating m) (body_of (Mutating m))) = Answer response ->
  content response <> success_envelope m ->
  fromstring (content response) = None ->
  result (call_mutating device fromstring m self log) = Raise ParseError.
Proof.
  intros Hm Hdevice Hbody Hparse.
  rewrite (error_path m self log response Hdevice Hbody).
  destruct m; try discriminate Hm; cbn [on_error];
    unfold __parse_error, bind, XML_fromstring;
    rewrite Hparse; reflexivity.
Qed.

(** [mute] and [status_light] raise on every response that is not their
    success envelope. *)
Lemma undefined_parse_raises (m : mutating) self log response :
  parses_errors m = false ->
  device log (wire self (Mutating m) (body_of (Mutating m))) = Answer response ->
  content response <> success_envelope m ->
  result (call_mutating device fromstring m self log)
  = Raise (AttributeError "'SoCo' object has no attribute 'parse'").
Proof.
  intros Hm Hdevice Hbody.
  rewrite (error_path m self log response Hdevice Hbody).
  destruct m; try discriminate Hm; reflexivity.
Qed.


(** The request of [get_current_track_info] and what follows it. *)
Ltac track_info_after_request Hdevice :=
  unfold get_current_track_info; cbn zeta; unfold bind at 1;
  match goal with
  | |- context [__send_command device ?e ?a ?b ?self ?log] =>
      change (__send_command device e a b self log)
        with (__send_command device (endpoint_of GetCurrentTrackInfo)
                (quoted (service_of GetCurrentTrackInfo ++ "#"
                         ++ action_of GetCurrentTrackInfo))
                (body_of GetCurrentTrackInfo) self log)
  end;
  rewrite send_command_run, Hdevice.

Lemma track_info_request self log request :
  log_after (get_current_track_info device fromstring self log)
    = (log ++ [request])%list ->
  request = wire self GetCurrentTrackInfo (body_of GetCurrentTrackInfo).
Proof.
  destruct (track_info_exchange device fromstring) as [read Hread].
  rewrite Hread. apply sent_request.
Qed.

(** With metadata to parse, the three fields are what [findtext] finds in
    it: [None] for an element that is not there. *)
Lemma track_info_with_metadata self log response dom d metadata :
  device log (wire self GetCurrentTrackInfo (body_of GetCurrentTrackInfo))
    = Answer response ->
  fromstring (content response) = Some dom ->
  findtext dom ".//TrackMetaData" = Some d ->
  d <> EmptyString ->
  fromstring d = Some metadata ->
  result (get_current_track_info device fromstring self log)
  = Return (Dict_
      [("playlist_position", of_findtext (findtext dom ".//Track"));
       ("duration", of_findtext (findtext dom ".//TrackDuration"));
       ("title", of_findtext
          (findtext metadata ".//{http://purl.org/dc/elements/1.1/}title"));
       ("artist", of_findtext
          (findtext metadata ".//{http://purl.org/dc/elements/1.1/}creator"));
       ("album", of_findtext
          (findtext metadata
             ".//{urn:schemas-upnp-org:metadata-1-0/upnp/}album"))]).
Proof.
  intros Hdevice Hdom Hd Hne Hmeta.
  track_info_after_request Hdevice.
  unfold bind, XML_fromstring. rewrite Hdom. cbn [ret].
  rewrite Hd. destruct d as [ | c d']; [congruence | ].
  cbn [is_not_empty encode ret]. rewrite Hmeta. reflexivity.
Qed.

(** C5.  When the text of [TrackMetaData] in the response is empty,
    [get_current_track_info] returns title, artist and album all equal to
    the empty string, whatever [Track] and [TrackDuration] hold; the
    metadata is not parsed: nothing is asked of the parser beyond the
    response itself. *)
Theorem empty_metadata_gives_empty_fields self log request response dom :
  log_after (get_current_track_info device fromstring self log)
    = (log ++ [request])%list ->
  device log request = Answer response ->
  fromstring (content response) = Some dom ->
  findtext dom ".//TrackMetaData" = Some EmptyString ->
  result (get_current_track_info device fromstring self log)
  = Return (Dict_
      [("playlist_position", of_findtext (findtext dom ".//Track"));
       ("duration", of_findtext (findtext dom ".//TrackDuration"));
       ("title", Str_ EmptyString);
       ("artist", Str_ EmptyString);
       ("album", Str_ EmptyString)]).
Proof.
  intros Hlog Hdevice Hdom Hd.
  apply track_info_request in Hlog. subst request.
  track_info_after_request Hdevice.
  unfold bind, XML_fromstring. rewrite Hdom. cbn [ret].
  rewrite Hd. reflexivity.
Qed.

(** C6.  [mute(True)] sends a body that contains
    [<DesiredMute>1</DesiredMute>] and [mute(False)] one that contains
    [<DesiredMute>0</DesiredMute>]; [status_light(True)] sends
    [<DesiredLEDState>On</DesiredLEDState>] and [status_light(False)]
    [<DesiredLEDState>Off</DesiredLEDState>]. *)
Theorem mute_and_status_light_bodies (b : bool) self log :
  (exists request body,
      log_after (mute device (Bool_ b) self log) = (log ++ [request])%list
      /\ data request = envelope body
      /\ is_infix
           ("<DesiredMute>" ++ (if b then "1" else "0") ++ "</DesiredMute>")
           body)
  /\ (exists request body,
         log_after (status_light device (Bool_ b) self log)
           = (log ++ [request])%list
         /\ data request = envelope body
         /\ is_infix
              ("<DesiredLEDState>" ++ (if b then "On" else "Off")
               ++ "</DesiredLEDState>")
              body).
Proof.
  split.
  - exists (wire self (Mutating (Mute (Bool_ b)))
              (body_of (Mutating (Mute (Bool_ b))))),
      (body_of (Mutating (Mute (Bool_ b)))).
    split; [ | split; [reflexivity | ]].
    + change (mute device (Bool_ b) self log)
        with (call_mutating device (fun _ => None) (Mute (Bool_ b)) self log).
      rewrite call_mutating_exchange. apply log_after_exchange.
    + exists (action_tag (Mutating (Mute (Bool_ b)))
              ++ "<InstanceID>0</InstanceID><Channel>Master</Channel>"),
        "</u:SetMute>".
      destruct b; reflexivity.
  - exists (wire self (Mutating (StatusLight (Bool_ b)))
              (body_of (Mutating (StatusLight (Bool_ b))))),
      (body_of (Mutating (StatusLight (Bool_ b)))).
    split; [ | split; [reflexivity | ]].
    + change (status_light device (Bool_ b) self log)
        with (call_mutating device (fun _ => None)
                (StatusLight (Bool_ b)) self log).
      rewrite call_mutating_exchange. apply log_after_exchange.
    + exists (action_tag (Mutating (StatusLight (Bool_ b)))), EmptyString.
      destruct b; reflexivity.
Qed.


Lemma repr_is_decimal (volume : Z) :
  (0 <= volume <= 100)%Z -> is_decimal_of (repr volume) volume = true.
Proof.
  intros Hrange.
  assert (Hall : forallb
            (fun n => is_decimal_of (repr (Z.of_nat n)) (Z.of_nat n))
            (seq 0 101) = true) by (vm_compute; reflexivity).
  rewrite forallb_forall in Hall.
  specialize (Hall (Z.to_nat volume)).
  rewrite Z2Nat.id in Hall by lia.
  apply Hall. apply in_seq. lia.
Qed.

(** C7.  For every integer volume from 0 to 100, [set_volume(volume)] sends
    a body that contains [<DesiredVolume>], the decimal numeral of the
    volume and [</DesiredVolume>]. *)
Theorem set_volume_body (volume : Z) self log :
  (0 <= volume <= 100)%Z ->
  exists request body numeral,
    log_after (set_volume device fromstring volume self log)
      = (log ++ [request])%list
    /\ data request = envelope body
    /\ is_decimal_of numeral volume = true
    /\ is_infix ("<DesiredVolume>" ++ numeral ++ "</DesiredVolume>") body.
Proof.
  intros Hrange.
  exists (wire self (Mutating (SetVolume volume))
            (body_of (Mutating (SetVolume volume)))),
    (body_of (Mutating (SetVolume volume))), (repr volume).
  split; [ | split; [reflexivity | split]].
  - change (set_volume device fromstring volume self log)
      with (call_mutating device fromstring (SetVolume volume) self log).
    rewrite call_mutating_exchange. apply log_after_exchange.
  - apply repr_is_decimal, Hrange.
  - exists (action_tag (Mutating (SetVolume volume))
            ++ "<InstanceID>0</InstanceID><Channel>Master</Channel>"),
      "</u:SetVolume>".
    rewrite !append_assoc. reflexivity.
Qed.

(** C8.  Every operation, with every argument, sends one POST to
    [http://<host>:1400<path>], where the path is one of the three control
    paths; the request carries the headers [Content-Type: text/xml] and
    [SOAPACTION], the quoted action URI; its data is the envelope around
    the body of the operation, which opens with the action element. *)
Theorem every_request_follows_the_wire_contract (op : operation) self log :
  exists request,
    log_after (call device fromstring op self log) = (log ++ [request])%list
    /\ verb request = "POST"
    /\ url request = "http://" ++ speaker_ip self ++ ":1400" ++ endpoint_of op
    /\ In (endpoint_of op)
         [TRANSPORT_ENDPOINT; RENDERING_ENDPOINT; DEVICE_ENDPOINT]
    /\ headers request
       = [("Content-Type", "text/xml");
          ("SOAPACTION", quoted (service_of op ++ "#" ++ action_of op))]
    /\ data request = envelope_open ++ body_of op ++ envelope_close
    /\ startswith (action_tag op) (body_of op) = true.
Proof.
  exists (wire self op (body_of op)).
  split; [ | repeat split].
  - destruct (call_exchange device fromstring op) as [read Hread].
    rewrite Hread. apply log_after_exchange.
  - destruct op as [[ | | | | | x | v | x] | ]; cbn; tauto.
  - destruct op as [[ | | | | | x | v | x] | ]; reflexivity.
Qed.

(** C9.  No call changes the instance, whatever the operation and the
    response; against a speaker whose answers do not depend on the
    requests it received before, the same call made again gives the same
    result; and [pause] called twice against a stub that always answers
    with its success envelope returns [True] both times. *)
Theorem calls_leave_no_residue (op : operation) self log :
  let first := call device fromstring op self log in
  let second :=
    call device fromstring op (instance_after first) (log_after first) in
  instance_after first = self
  /\ instance_after second = self
  /\ ((forall h h' request, device h request = device h' request) ->
      result second = result first)
  /\ ((forall h request,
          device h request
          = Answer {| content := success_envelope Pause |}) ->
      op = Mutating Pause ->
      result first = Return (Bool_ true)
      /\ result second = Return (Bool_ true)).
Proof.
  cbn zeta.
  destruct (call_exchange device fromstring op) as [read Hread].
  assert (Hfirst : instance_after (call device fromstring op self log) = self)
    by (rewrite Hread; apply instance_after_exchange).
  rewrite Hfirst.
  split; [reflexivity | split; [ | split]].
  - rewrite Hread. apply instance_after_exchange.
  - intros Hstateless. rewrite !Hread. unfold exchange. cbn zeta.
    rewrite (Hstateless _ log). destruct (device log _); reflexivity.
  - intros Hstub Hop. subst op. cbn [call].
    rewrite !call_mutating_exchange. unfold exchange. cbn zeta.
    rewrite !Hstub. cbn [result fst content]. unfold read_mutating.
    rewrite String.eqb_refl. split; reflexivity.
Qed.

(** C10.  Whatever its argument, and so for both booleans, the body that
    [status_light] builds does not contain the end tag [</u:SetLEDState>];
    neither the body nor the envelope sent around it is well-formed XML. *)
Theorem status_light_body_is_unclosed (led_on : value) self log :
  exists request body,
    log_after (status_light device led_on self log) = (log ++ [request])%list
    /\ data request = envelope body
    /\ ~ is_infix "</u:SetLEDState>" body
    /\ Expat.parse body = Expat.Malformed
    /\ Expat.parse (data request) = Expat.Malformed.
Proof.
  exists (wire self (Mutating (StatusLight led_on))
            (body_of (Mutating (StatusLight led_on)))),
    (body_of (Mutating (StatusLight led_on))).
  split; [ | split; [reflexivity | ]].
  - change (status_light device led_on self log)
      with (call_mutating device (fun _ => None) (StatusLight led_on) self log).
    rewrite call_mutating_exchange. apply log_after_exchange.
  - unfold wire, data, body_of.
    destruct (is_True led_on);
      (split; [apply not_contains_not_infix | split]);
      vm_compute; reflexivity.
Qed.

End Claims.

Lemma success_envelope_returns_True_witness :
  result (call_mutating (stub (success_envelope (SetVolume 37)))
            Expat.fromstring (SetVolume 37) living_room [])
  = Return (Bool_ true).
Proof.
  apply (success_envelope_returns_True
           (stub (success_envelope (SetVolume 37))) Expat.fromstring
           (SetVolume 37) living_room []
           (wire living_room (Mutating (SetVolume 37))
              (body_of (Mutating (SetVolume 37))))
           {| content := success_envelope (SetVolume 37) |});
    reflexivity.
Defined.

(** The envelope of the contract is, byte for byte, the wrapper that the
    interface description spells out. *)
Example envelope_literal :
  envelope "{BODY}"
  = lit "<s:Envelope xmlns:s='http://schemas.xmlsoap.org/soap/envelope/' s:encodingStyle='http://schemas.xmlsoap.org/soap/encoding/'><s:Body>{BODY}</s:Body></s:Envelope>".
Proof. reflexivity. Qed.

(** C2.  A well-formed fault with error code 801 makes [play] return 801,
    but [mute] and [status_light] raise [AttributeError]: their error path
    calls [self.parse], which the class does not define. *)
Theorem mute_and_status_light_raise_on_a_fault :
  (exists error,
      Expat.parse fault_801 = Expat.Parsed error
      /\ findtext error ".//{urn:schemas-upnp-org:control-1-0}errorCode"
         = Some "801")
  /\ result (play (stub fault_801) Expat.fromstring living_room [])
     = Return (Int_ 801)
  /\ result (mute (stub fault_801) (Bool_ true) living_room [])
     = Raise (AttributeError "'SoCo' object has no attribute 'parse'")
  /\ result (status_light (stub fault_801) (Bool_ true) living_room [])
     = Raise (AttributeError "'SoCo' object has no attribute 'parse'").
Proof.
  split.
  - eexists. split; vm_compute; reflexivity.
  - repeat split; vm_compute; reflexivity.
Qed.

(** C3.  A response that is not XML is not returned: [play] raises
    [ParseError], on an empty body as on a line of text.  A well-formed
    page without an error code is returned as it came by [play], while
    [mute] raises [AttributeError] on it. *)
Theorem unparseable_response_raises_ParseError :
  Expat.parse EmptyString = Expat.Malformed
  /\ result (play (stub EmptyString) Expat.fromstring living_room [])
     = Raise ParseError
  /\ Expat.parse plain_error = Expat.Malformed
  /\ result (play (stub plain_error) Expat.fromstring living_room [])
     = Raise ParseError
  /\ result (play (stub error_page) Expat.fromstring living_room [])
     = Return (Str_ error_page)
  /\ result (mute (stub error_page) (Bool_ false) living_room [])
     = Raise (AttributeError "'SoCo' object has no attribute 'parse'").
Proof.
  repeat split; vm_compute; reflexivity.
Qed.

(** C4.  With metadata that holds the title Song A and the creator
    Artist B and no album element, [get_current_track_info] returns the
    album [None], not the empty string. *)
Theorem absent_album_is_None :
  result (get_current_track_info
            (stub (position_info "3" "0:03:25" song_a_metadata))
            Expat.fromstring living_room [])
  = Return (Dict_
      [("playlist_position", Str_ "3");
       ("duration", Str_ "0:03:25");
       ("title", Str_ "Song A");
       ("artist", Str_ "Artist B");
       ("album", None_)]).
Proof. vm_compute. reflexivity. Qed.

Lemma empty_metadata_gives_empty_fields_witness :
  result (get_current_track_info
            (stub (position_info "3" "0:03:25" EmptyString))
            Expat.fromstring living_room [])
  = Return (Dict_
      [("playlist_position", Str_ "3");
       ("duration", Str_ "0:03:25");
       ("title", Str_ EmptyString);
       ("artist", Str_ EmptyString);
       ("album", Str_ EmptyString)]).
Proof.
  let parsed :=
    eval vm_compute in
      (Expat.fromstring (position_info "3" "0:03:25" EmptyString)) in
  match parsed with
  | Some ?dom =>
      apply (empty_metadata_gives_empty_fields
               (stub (position_info "3" "0:03:25" EmptyString))
               Expat.fromstring living_room []
               (wire living_room GetCurrentTrackInfo
                  (body_of GetCurrentTrackInfo))
               {| content := position_info "3" "0:03:25" EmptyString |}
               dom)
  end; vm_compute; reflexivity.
Defined.

Lemma set_volume_body_witness :
  exists request body numeral,
    log_after (set_volume (stub (success_envelope (SetVolume 37)))
                 Expat.fromstring 37 living_room [])
      = [request]
    /\ data request = envelope body
    /\ is_decimal_of numeral 37 = true
    /\ is_infix ("<DesiredVolume>" ++ numeral ++ "</DesiredVolume>") body.
Proof.
  apply (set_volume_body (stub (success_envelope (SetVolume 37)))
           Expat.fromstring 37 living_room []).
  lia.
Defined.

(** [set_volume(37)] sends [<DesiredVolume>37</DesiredVolume>]. *)
Example set_volume_37 :
  map (fun request => contains (data request) "<DesiredVolume>37</DesiredVolume>")
    (log_after (set_volume (stub plain_error) Expat.fromstring 37
                  living_room []))
  = [true].
Proof. vm_compute. reflexivity. Qed.

Lemma calls_leave_no_residue_witness :
  let speaker := stub (success_envelope Pause) in
  let first := pause speaker Expat.fromstring living_room [] in
  let second :=
    pause speaker Expat.fromstring (instance_after first) (log_after first) in
  result first = Return (Bool_ true) /\ result second = Return (Bool_ true).
Proof.
  intros speaker first second.
  destruct (calls_leave_no_residue speaker Expat.fromstring
              (Mutating Pause) living_room [])
    as [_ [_ [_ Hpause]]].
  apply Hpause; reflexivity.
Defined.

(** * Further properties of the methods *)

(** ** [int] reads back what [repr] writes *)

Lemma digits_of_uint (d : Decimal.uint) (acc : Z) :
  digits acc true (NilEmpty.string_of_uint d) = Some (digits_value d acc).
Proof.
  revert acc. induction d; intros acc; [reflexivity | ..];
    cbn [NilEmpty.string_of_uint digits digits_value];
    match goal with
    | |- (if isdigit ?c then _ else _) = _ =>
        change (isdigit c) with true; cbn iota;
        let k := eval vm_compute in (Z.of_nat (nat_of_ascii c - 48)) in
        change (Z.of_nat (nat_of_ascii c - 48)) with k
    end;
    rewrite IHd; f_equal; f_equal; lia.
Qed.

Lemma digits_value_acc (d : Decimal.uint) (p : positive) :
  digits_value d (Z.pos p) = Z.pos (Pos.of_uint_acc d p).
Proof.
  revert p. induction d; intros p; cbn [digits_value Pos.of_uint_acc];
    try reflexivity;
    match goal with
    | |- digits_value _ ?a = Z.pos (Pos.of_uint_acc _ ?q) =>
        replace a with (Z.pos q) by lia; apply IHd
    end.
Qed.

Lemma digits_value_of_uint (d : Decimal.uint) :
  digits_value d 0 = Z.of_N (Pos.of_uint d).
Proof.
  induction d; cbn [digits_value Pos.of_uint Z.mul Z.add];
    try reflexivity; try exact IHd;
    match goal with
    | |- digits_value _ (Z.pos ?q) = _ => rewrite digits_value_acc; reflexivity
    end.
Qed.

Lemma string_of_uint_starts_with_digit (d : Decimal.uint) :
  d <> Decimal.Nil ->
  exists c r,
    NilEmpty.string_of_uint d = String c r
    /\ isdigit c = true /\ isspace c = false
    /\ Ascii.eqb c "-" = false /\ Ascii.eqb c "+" = false.
Proof.
  intros Hd. destruct d; try congruence;
    eexists; eexists; (split; [reflexivity | repeat split; reflexivity]).
Qed.

Lemma int_of_digits (d : Decimal.uint) :
  d <> Decimal.Nil ->
  Py.int (NilEmpty.string_of_uint d) = Some (digits_value d 0).
Proof.
  intros Hd. rewrite <- digits_of_uint.
  destruct (string_of_uint_starts_with_digit d Hd)
    as [c [r [Hs [Hdigit [Hspace [Hminus Hplus]]]]]].
  rewrite Hs. unfold Py.int. cbn [lstrip]. rewrite Hspace.
  destruct c as [[|] [|] [|] [|] [|] [|] [|] [|]];
    try discriminate; cbn [digits]; rewrite ?Hdigit; reflexivity.
Qed.

Lemma int_decimal (z : Z) : Py.int (decimal z) = Some z.
Proof.
  unfold decimal. destruct z as [ | p | p]; cbn [Z.to_int].
  - reflexivity.
  - pose proof (DecimalPos.Unsigned.to_uint_nonnil p) as Hnil.
    replace (NilZero.string_of_int (Decimal.Pos (Pos.to_uint p)))
      with (NilEmpty.string_of_uint (Pos.to_uint p))
      by (unfold NilZero.string_of_int, NilZero.string_of_uint;
          destruct (Pos.to_uint p) eqn:E; [congruence | reflexivity ..]).
    rewrite (int_of_digits _ Hnil), digits_value_of_uint,
      DecimalPos.Unsigned.of_to.
    reflexivity.
  - pose proof (DecimalPos.Unsigned.to_uint_nonnil p) as Hnil.
    replace (NilZero.string_of_int (Decimal.Neg (Pos.to_uint p)))
      with (String "-" (NilEmpty.string_of_uint (Pos.to_uint p)))
      by (unfold NilZero.string_of_int, NilZero.string_of_uint;
          destruct (Pos.to_uint p) eqn:E; [congruence | reflexivity ..]).
    destruct (string_of_uint_starts_with_digit _ Hnil)
      as [c [r [Hs [Hdigit [Hspace _]]]]].
    unfold Py.int. cbn [lstrip]. change (isspace "-") with false. cbn iota.
    assert (Hstrip : lstrip (NilEmpty.string_of_uint (Pos.to_uint p))
                     = NilEmpty.string_of_uint (Pos.to_uint p))
      by (rewrite Hs; cbn [lstrip]; rewrite Hspace; reflexivity).
    change (option_map Z.opp
              (digits 0 false (lstrip (NilEmpty.string_of_uint (Pos.to_uint p))))
            = Some (Z.neg p)).
    rewrite Hstrip.
    assert (Hfirst : digits 0 false (NilEmpty.string_of_uint (Pos.to_uint p))
                     = digits 0 true (NilEmpty.string_of_uint (Pos.to_uint p)))
      by (rewrite Hs; cbn [digits]; rewrite Hdigit; reflexivity).
    rewrite Hfirst, digits_of_uint, digits_value_of_uint,
      DecimalPos.Unsigned.of_to.
    reflexivity.
Qed.

Lemma int_repr (z : Z) :
  (- sys_maxint - 1 <= z <= sys_maxint)%Z -> Py.int (repr z) = Some z.
Proof.
  intros Hz. unfold repr.
  replace ((- sys_maxint - 1 <=? z)%Z && (z <=? sys_maxint)%Z) with true
    by (symmetry; apply andb_true_iff; split; apply Z.leb_le; lia).
  apply int_decimal.
Qed.

(** ** What the methods return and raise *)

Section Further.

Variable device : list Request -> Request -> Reply.
Variable fromstring : string -> option Element.

(** The answer to the request of a mutating method decides its result. *)
Lemma mutating_cases (m : mutating) self log :
  let request := wire self (Mutating m) (body_of (Mutating m)) in
  log_after (call_mutating device fromstring m self log)
    = (log ++ [request])%list
  /\ ((device log request = Failure
       /\ result (call_mutating device fromstring m self log)
          = Raise ConnectionError)
      \/ exists response,
           device log request = Answer response
           /\ ((content response = success_envelope m
                /\ result (call_mutating device fromstring m self log)
                   = Return (Bool_ true))
               \/ (content response <> success_envelope m
                   /\ result (call_mutating device fromstring m self log)
                      = result (on_error fromstring m (content response)
                                  self log)))).
Proof.
  cbn zeta. split.
  - rewrite call_mutating_exchange. apply log_after_exchange.
  - destruct (device log _) as [response | ] eqn:Hdevice.
    + right. exists response. split; [reflexivity | ].
      destruct (String.eqb_spec (content response) (success_envelope m))
        as [Heq | Hne].
      * left. split; [exact Heq | ].
        rewrite call_mutating_exchange. unfold exchange. cbn zeta.
        rewrite Hdevice. cbn [result fst]. unfold read_mutating.
        rewrite Heq, String.eqb_refl. reflexivity.
      * right. split; [exact Hne | ].
        apply (error_path device fromstring m self log response Hdevice Hne).
    + left. split; [reflexivity | ].
      rewrite call_mutating_exchange. unfold exchange. cbn zeta.
      rewrite Hdevice. reflexivity.
Qed.

(** The four ways out of [__parse_error]. *)
Lemma parse_error_cases (response : string) self log :
  (fromstring response = None
   /\ result (__parse_error fromstring response self log) = Raise ParseError)
  \/ exists error,
       fromstring response = Some error
       /\ ((findtext error ".//{urn:schemas-upnp-org:control-1-0}errorCode"
            = None
            /\ result (__parse_error fromstring response self log)
               = Return (Str_ response))
           \/ exists code,
                findtext error
                  ".//{urn:schemas-upnp-org:control-1-0}errorCode"
                = Some code
                /\ ((Py.int code = None
                     /\ result (__parse_error fromstring response self log)
                        = Raise ValueError)
                    \/ exists n,
                         Py.int code = Some n
                         /\ result (__parse_error fromstring response self log)
                            = Return (Int_ n))).
Proof.
  unfold __parse_error, bind, XML_fromstring.
  destruct (fromstring response) as [error | ]; [right | left; auto].
  exists error. split; [reflexivity | ]. cbn [ret].
  destruct (findtext error _) as [code | ]; [right | left; auto].
  exists code. split; [reflexivity | ]. unfold int_.
  destruct (Py.int code) as [n | ]; [right; exists n; auto | left; auto].
Qed.

(** X1.  A mutating method returns [True] only when the body of the
    response is exactly its success envelope: nothing on the error path
    returns [True]. *)
Theorem True_only_for_the_success_envelope (m : mutating) self log :
  result (call_mutating device fromstring m self log) = Return (Bool_ true) ->
  exists request response,
    log_after (call_mutating device fromstring m self log)
      = (log ++ [request])%list
    /\ device log request = Answer response
    /\ content response = success_envelope m.
Proof.
  intros Htrue.
  destruct (mutating_cases m self log) as [Hlog Hcases]. cbn zeta in *.
  exists (wire self (Mutating m) (body_of (Mutating m))).
  destruct Hcases as [[_ Hraise] | [response [Hdevice Hcases]]];
    [congruence | ].
  exists response. split; [exact Hlog | split; [exact Hdevice | ]].
  destruct Hcases as [[Heq _] | [_ Herror]]; [exact Heq | exfalso].
  rewrite Herror in Htrue.
  destruct m; cbn [on_error] in Htrue; try discriminate Htrue;
    destruct (parse_error_cases (content response) self log)
      as [[_ H] | [error [_ [[_ H] | [code [_ [[_ H] | [n [_ H]]]]]]]]];
    congruence.
Qed.


(** X3.  When the request cannot be delivered, every operation raises
    [ConnectionError]: no method catches the failure of [requests.post];
    the instance is as it was. *)
Theorem transport_failure_reaches_the_caller (op : operation) self log request :
  log_after (call device fromstring op self log) = (log ++ [request])%list ->
  device log request = Failure ->
  result (call device fromstring op self log) = Raise ConnectionError
  /\ instance_after (call device fromstring op self log) = self.
Proof.
  destruct (call_exchange device fromstring op) as [read Hread].
  rewrite Hread. intros Hlog Hdevice.
  apply sent_request in Hlog. subst request.
  unfold exchange. cbn zeta. rewrite Hdevice. split; reflexivity.
Qed.

(** X4.  When the fault carries an error code element whose text is not a
    decimal integer (an empty element, for one), the six methods that parse
    the error raise [ValueError]: they return neither a code nor the
    response. *)
Theorem unreadable_error_code_raises_ValueError
  (m : mutating) self log request response error code :
  parses_errors m = true ->
  log_after (call_mutating device fromstring m self log)
    = (log ++ [request])%list ->
  device log request = Answer response ->
  content response <> success_envelope m ->
  fromstring (content response) = Some error ->
  findtext error ".//{urn:schemas-upnp-org:control-1-0}errorCode" = Some code ->
  Py.int code = None ->
  result (call_mutating device fromstring m self log) = Raise ValueError.
Proof.
  intros Hm Hlog Hdevice Hbody Hparse Hcode Hint.
  rewrite call_mutating_exchange in Hlog. apply sent_request in Hlog.
  subst request.
  rewrite (error_path device fromstring m self log response Hdevice Hbody).
  destruct m; try discriminate Hm; cbn [on_error];
    unfold __parse_error, bind, XML_fromstring;
    rewrite Hparse; cbn; rewrite Hcode; unfold int_; rewrite Hint;
    reflexivity.
Qed.


(** *** [get_current_track_info] *)

Ltac track_info_unfold :=
  unfold get_current_track_info; cbn zeta; unfold bind at 1;
  match goal with
  | |- context [__send_command device ?e ?a ?b ?self ?log] =>
      change (__send_command device e a b self log)
        with (__send_command device (endpoint_of GetCurrentTrackInfo)
                (quoted (service_of GetCurrentTrackInfo ++ "#"
                         ++ action_of GetCurrentTrackInfo))
                (body_of GetCurrentTrackInfo) self log)
  end;
  rewrite send_command_run.

(** X5.  When the response has no [TrackMetaData] element at all (a UPnP
    fault, for one), [get_current_track_info] raises [AttributeError]:
    [None] is not the empty string, and [None] has no [encode]. *)
Theorem missing_metadata_element_raises_AttributeError
  self log request response dom :
  log_after (get_current_track_info device fromstring self log)
    = (log ++ [request])%list ->
  device log request = Answer response ->
  fromstring (content response) = Some dom ->
  findtext dom ".//TrackMetaData" = None ->
  result (get_current_track_info device fromstring self log)
  = Raise (AttributeError "'NoneType' object has no attribute 'encode'").
Proof.
  intros Hlog Hdevice Hdom Hd.
  apply (track_info_request device fromstring) in Hlog. subst request.
  track_info_unfold. rewrite Hdevice.
  unfold bind, XML_fromstring. rewrite Hdom. cbn [ret].
  rewrite Hd. reflexivity.
Qed.

(** X6.  When the text of [TrackMetaData] is not empty and is not
    well-formed XML (a speaker sends NOT_IMPLEMENTED for some sources),
    [get_current_track_info] raises [ParseError]: no field is returned,
    not even the position and the duration already read. *)
Theorem unparseable_metadata_raises_ParseError
  self log request response dom d :
  log_after (get_current_track_info device fromstring self log)
    = (log ++ [request])%list ->
  device log request = Answer response ->
  fromstring (content response) = Some dom ->
  findtext dom ".//TrackMetaData" = Some d ->
  d <> EmptyString ->
  fromstring d = None ->
  result (get_current_track_info device fromstring self log)
  = Raise ParseError.
Proof.
  intros Hlog Hdevice Hdom Hd Hne Hmeta.
  apply (track_info_request device fromstring) in Hlog. subst request.
  track_info_unfold. rewrite Hdevice.
  unfold bind, XML_fromstring. rewrite Hdom. cbn [ret].
  rewrite Hd. destruct d as [ | c d']; [congruence | ].
  cbn [is_not_empty encode ret]. rewrite Hmeta. reflexivity.
Qed.


(** *** Arguments *)

(** X8.  [mute] and [status_light] test their argument with [is True]:
    every argument other than the boolean [True] (the integer 1 and
    [None] among them) sends [<DesiredMute>0</DesiredMute>] and
    [<DesiredLEDState>Off</DesiredLEDState>]. *)
Theorem only_True_mutes_or_lights (x : value) self log :
  x <> Bool_ true ->
  (exists request body,
      log_after (mute device x self log) = (log ++ [request])%list
      /\ data request = envelope body
      /\ is_infix "<DesiredMute>0</DesiredMute>" body
      /\ ~ is_infix "<DesiredMute>1</DesiredMute>" body)
  /\ (exists request body,
         log_after (status_light device x self log) = (log ++ [request])%list
         /\ data request = envelope body
         /\ is_infix "<DesiredLEDState>Off</DesiredLEDState>" body
         /\ ~ is_infix "<DesiredLEDState>On</DesiredLEDState>" body).
Proof.
  intros Hx.
  assert (Hfalse : is_True x = false)
    by (destruct x as [ | [ | ] | | | ]; try reflexivity; congruence).
  split.
  - exists (wire self (Mutating (Mute x)) (body_of (Mutating (Mute x)))),
      (body_of (Mutating (Mute x))).
    split; [ | split; [reflexivity | ]].
    + change (mute device x self log)
        with (call_mutating device (fun _ => None) (Mute x) self log).
      rewrite call_mutating_exchange. apply log_after_exchange.
    + unfold body_of. rewrite Hfalse. split.
      * apply contains_infix. vm_compute. reflexivity.
      * apply not_contains_not_infix. vm_compute. reflexivity.
  - exists (wire self (Mutating (StatusLight x))
              (body_of (Mutating (StatusLight x)))),
      (body_of (Mutating (StatusLight x))).
    split; [ | split; [reflexivity | ]].
    + change (status_light device x self log)
        with (call_mutating device (fun _ => None) (StatusLight x) self log).
      rewrite call_mutating_exchange. apply log_after_exchange.
    + unfold body_of. rewrite Hfalse. split.
      * apply contains_infix. vm_compute. reflexivity.
      * apply not_contains_not_infix. vm_compute. reflexivity.
Qed.

(** X9.  [set_volume] does not check its argument: for every machine
    integer, negative or above 100 as well, the body holds
    [<DesiredVolume>], a numeral that [int] reads back as the volume, and
    [</DesiredVolume>]. *)
Theorem set_volume_forwards_every_int (volume : Z) self log :
  (- sys_maxint - 1 <= volume <= sys_maxint)%Z ->
  exists request body numeral,
    log_after (set_volume device fromstring volume self log)
      = (log ++ [request])%list
    /\ data request = envelope body
    /\ Py.int numeral = Some volume
    /\ is_infix ("<DesiredVolume>" ++ numeral ++ "</DesiredVolume>") body.
Proof.
  intros Hrange.
  exists (wire self (Mutating (SetVolume volume))
            (body_of (Mutating (SetVolume volume)))),
    (body_of (Mutating (SetVolume volume))), (repr volume).
  split; [ | split; [reflexivity | split]].
  - change (set_volume device fromstring volume self log)
      with (call_mutating device fromstring (SetVolume volume) self log).
    rewrite call_mutating_exchange. apply log_after_exchange.
  - apply int_repr, Hrange.
  - exists (action_tag (Mutating (SetVolume volume))
            ++ "<InstanceID>0</InstanceID><Channel>Master</Channel>"),
      "</u:SetVolume>".
    rewrite !append_assoc. reflexivity.
Qed.


(** *** Several calls in a row *)

Lemma call_frame (op : operation) self log :
  instance_after (call device fromstring op self log) = self
  /\ log_after (call device fromstring op self log)
     = (log ++ [wire self op (body_of op)])%list.
Proof.
  destruct (call_exchange device fromstring op) as [read Hread].
  rewrite Hread. split.
  - apply instance_after_exchange.
  - apply log_after_exchange.
Qed.

(** X10.  Calls made one after the other on an instance put exactly one
    request each on the wire, in the order of the calls and whatever the
    calls return or raise, and leave the instance as it was. *)
Theorem calls_in_a_row_send_one_request_each (ops : list operation) self log :
  let run := call_all device fromstring ops self log in
  length (fst (fst run)) = length ops
  /\ snd (fst run) = self
  /\ snd run = (log ++ map (fun op => wire self op (body_of op)) ops)%list.
Proof.
  cbn zeta. revert log.
  induction ops as [ | op rest IH]; intros log.
  - cbn. rewrite app_nil_r. repeat split.
  - cbn [call_all]. cbn zeta.
    destruct (call_frame op self log) as [Hself Hlog].
    rewrite Hself, Hlog.
    specialize (IH (log ++ [wire self op (body_of op)])%list).
    destruct (call_all device fromstring rest self _)
      as [[results self'] log'].
    cbn [fst snd length map] in *.
    destruct IH as [Hlen [Hinst Hlogs]].
    rewrite Hlen, Hinst, Hlogs, <- app_assoc. repeat split.
Qed.

(** X11.  Against a speaker whose answers do not depend on the requests
    it received before, each call of a row of calls gives what it gives
    when it is made alone: no call leaves anything behind for the next. *)
Theorem calls_in_a_row_are_independent (ops : list operation) self log :
  (forall h h' request, device h request = device h' request) ->
  fst (fst (call_all device fromstring ops self log))
  = map (fun op => result (call device fromstring op self log)) ops.
Proof.
  intros Hstateless.
  assert (Hsame : forall op log',
             result (call device fromstring op self log')
             = result (call device fromstring op self log)).
  { intros op log'.
    destruct (call_exchange device fromstring op) as [read Hread].
    rewrite !Hread. unfold exchange. cbn zeta.
    rewrite (Hstateless log' log). destruct (device log _); reflexivity. }
  generalize log at 1.
  induction ops as [ | op rest IH]; intros log'.
  - reflexivity.
  - cbn [call_all]. cbn zeta.
    destruct (call_frame op self log') as [Hself Hlog].
    rewrite Hself.
    specialize (IH (log_after (call device fromstring op self log'))).
    destruct (call_all device fromstring rest self _)
      as [[results self'] log''].
    cbn [fst snd map] in *. rewrite IH, Hsame. reflexivity.
Qed.

(** *** The request as the speaker reads it *)

Lemma in_documented_range (v : Z) :
  (0 <= v <= 100)%Z -> In (Z.to_nat v) (seq 0 101) /\ Z.of_nat (Z.to_nat v) = v.
Proof.
  intros Hv. split; [apply in_seq; lia | apply Z2Nat.id; lia].
Qed.

Lemma documented_well_formed (op : operation) :
  documented op = true -> well_formed_request op = true.
Proof.
  destruct op as [[ | | | | | x | v | x] | ]; cbn [documented]; intros Hop.
  - vm_compute. reflexivity.
  - vm_compute. reflexivity.
  - vm_compute. reflexivity.
  - vm_compute. reflexivity.
  - vm_compute. reflexivity.
  - unfold well_formed_request, body_of.
    destruct (is_True x); vm_compute; reflexivity.
  - assert (Hall : forallb
              (fun n => well_formed_request (Mutating (SetVolume (Z.of_nat n))))
              (seq 0 101) = true) by (vm_compute; reflexivity).
    rewrite forallb_forall in Hall.
    apply andb_true_iff in Hop. destruct Hop as [Hlo Hhi].
    apply Z.leb_le in Hlo. apply Z.leb_le in Hhi.
    destruct (in_documented_range v (conj Hlo Hhi)) as [Hin Hid].
    specialize (Hall _ Hin). rewrite Hid in Hall. exact Hall.
  - discriminate Hop.
  - vm_compute. reflexivity.
Qed.

Lemma well_formed_request_inv (op : operation) :
  well_formed_request op = true ->
  exists action,
    action_element (envelope (body_of op)) = Some action
    /\ tag action = Expat.clark (service_of op) (action_of op)
    /\ findtext action ".//InstanceID" = Some "0".
Proof.
  unfold well_formed_request. intros Hop.
  destruct (action_element (envelope (body_of op))) as [action | ];
    [ | discriminate Hop].
  exists action.
  apply andb_true_iff in Hop. destruct Hop as [Htag Hid].
  split; [reflexivity | split].
  - apply String.eqb_eq, Htag.
  - destruct (findtext action ".//InstanceID") as [s | ];
      [ | discriminate Hid].
    apply String.eqb_eq in Hid. subst s. reflexivity.
Qed.

(** X12.  Every operation but [status_light] (with the volume of
    [set_volume] from 0 to 100) sends a well-formed envelope whose body
    holds one element, the action element of the operation in the
    namespace of its service, with [InstanceID] 0. *)
Theorem documented_requests_are_well_formed (op : operation) self log :
  documented op = true ->
  exists request action,
    log_after (call device fromstring op self log) = (log ++ [request])%list
    /\ action_element (data request) = Some action
    /\ tag action = Expat.clark (service_of op) (action_of op)
    /\ findtext action ".//InstanceID" = Some "0".
Proof.
  intros Hop. apply documented_well_formed in Hop.
  destruct (well_formed_request_inv op Hop) as [action [Haction [Htag Hid]]].
  exists (wire self op (body_of op)), action.
  split; [apply call_frame | split; [exact Haction | split; assumption]].
Qed.

Lemma documented_volume_reads_back (v : Z) :
  (0 <= v <= 100)%Z -> volume_reads_back v = true.
Proof.
  intros Hv.
  assert (Hall : forallb (fun n => volume_reads_back (Z.of_nat n)) (seq 0 101)
                 = true) by (vm_compute; reflexivity).
  rewrite forallb_forall in Hall.
  destruct (in_documented_range v Hv) as [Hin Hid].
  specialize (Hall _ Hin). rewrite Hid in Hall. exact Hall.
Qed.

Lemma volume_reads_back_inv (v : Z) :
  volume_reads_back v = true ->
  exists action,
    action_element (envelope (body_of (Mutating (SetVolume v)))) = Some action
    /\ int_argument action ".//DesiredVolume" = Some v
    /\ findtext action ".//Channel" = Some "Master".
Proof.
  unfold volume_reads_back. intros Hv.
  destruct (action_element _) as [action | ]; [ | discriminate Hv].
  exists action. split; [reflexivity | ].
  destruct (int_argument action ".//DesiredVolume") as [n | ];
    [ | discriminate Hv].
  destruct (findtext action ".//Channel") as [channel | ];
    [ | discriminate Hv].
  apply andb_true_iff in Hv. destruct Hv as [Hn Hchannel].
  apply Z.eqb_eq in Hn. apply String.eqb_eq in Hchannel.
  subst n channel. split; reflexivity.
Qed.

Lemma mute_reads_back (x : value) :
  exists action,
    action_element (envelope (body_of (Mutating (Mute x)))) = Some action
    /\ findtext action ".//DesiredMute" = Some (if is_True x then "1" else "0")
    /\ findtext action ".//Channel" = Some "Master".
Proof.
  unfold body_of.
  destruct (is_True x); eexists; repeat split; vm_compute; reflexivity.
Qed.

(** X13.  The arguments survive the trip: in the request of
    [set_volume(volume)], for a volume from 0 to 100, the speaker reads
    [DesiredVolume] back as the volume, on the channel Master; in the
    request of [mute(x)] it reads [DesiredMute] 1 when [x is True] and 0
    otherwise. *)
Theorem arguments_read_back (volume : Z) (x : value) self log :
  (0 <= volume <= 100)%Z ->
  (exists request action,
      log_after (set_volume device fromstring volume self log)
        = (log ++ [request])%list
      /\ action_element (data request) = Some action
      /\ int_argument action ".//DesiredVolume" = Some volume
      /\ findtext action ".//Channel" = Some "Master")
  /\ (exists request action,
         log_after (mute device x self log) = (log ++ [request])%list
         /\ action_element (data request) = Some action
         /\ findtext action ".//DesiredMute"
            = Some (if is_True x then "1" else "0")
         /\ findtext action ".//Channel" = Some "Master").
Proof.
  intros Hv. split.
  - apply documented_volume_reads_back, volume_reads_back_inv in Hv.
    destruct Hv as [action [Haction [Hvolume Hchannel]]].
    exists (wire self (Mutating (SetVolume volume))
              (body_of (Mutating (SetVolume volume)))), action.
    split; [ | split; [exact Haction | split; assumption]].
    apply (call_frame (Mutating (SetVolume volume))).
  - destruct (mute_reads_back x) as [action [Haction [Hmute Hchannel]]].
    exists (wire self (Mutating (Mute x)) (body_of (Mutating (Mute x)))),
      action.
    split; [ | split; [exact Haction | split; assumption]].
    change (mute device x self log)
      with (call_mutating device (fun _ => None) (Mute x) self log).
    rewrite call_mutating_exchange. apply log_after_exchange.
Qed.

End Further.

(** ** The further properties at work *)

Lemma True_only_for_the_success_envelope_witness :
  exists request response,
    log_after (call_mutating (stub (success_envelope Stop)) Expat.fromstring
                 Stop living_room [])
      = [request]
    /\ stub (success_envelope Stop) [] request = Answer response
    /\ content response = success_envelope Stop.
Proof.
  apply (True_only_for_the_success_envelope
           (stub (success_envelope Stop)) Expat.fromstring Stop living_room []).
  vm_compute. reflexivity.
Defined.

Lemma transport_failure_reaches_the_caller_witness :
  result (call unreachable Expat.fromstring GetCurrentTrackInfo living_room [])
  = Raise ConnectionError
  /\ instance_after
       (call unreachable Expat.fromstring GetCurrentTrackInfo living_room [])
     = living_room.
Proof.
  apply (transport_failure_reaches_the_caller
           unreachable Expat.fromstring GetCurrentTrackInfo living_room []
           (wire living_room GetCurrentTrackInfo (body_of GetCurrentTrackInfo)));
    reflexivity.
Defined.

Lemma unreadable_error_code_raises_ValueError_witness :
  result (call_mutating (stub fault_without_code) Expat.fromstring Next
            living_room [])
  = Raise ValueError.
Proof.
  let parsed := eval vm_compute in (Expat.fromstring fault_without_code) in
  match parsed with
  | Some ?error =>
      apply (unreadable_error_code_raises_ValueError
               (stub fault_without_code) Expat.fromstring Next living_room []
               (wire living_room (Mutating Next) (body_of (Mutating Next)))
               {| content := fault_without_code |} error EmptyString)
  end;
    try (apply String.eqb_neq); vm_compute; reflexivity.
Defined.

Lemma missing_metadata_element_raises_AttributeError_witness :
  result (get_current_track_info (stub fault_801) Expat.fromstring
            living_room [])
  = Raise (AttributeError "'NoneType' object has no attribute 'encode'").
Proof.
  let parsed := eval vm_compute in (Expat.fromstring fault_801) in
  match parsed with
  | Some ?dom =>
      apply (missing_metadata_element_raises_AttributeError
               (stub fault_801) Expat.fromstring living_room []
               (wire living_room GetCurrentTrackInfo
                  (body_of GetCurrentTrackInfo))
               {| content := fault_801 |} dom)
  end; vm_compute; reflexivity.
Defined.

Lemma unparseable_metadata_raises_ParseError_witness :
  result (get_current_track_info
            (stub (position_info "3" "0:03:25" "NOT_IMPLEMENTED"))
            Expat.fromstring living_room [])
  = Raise ParseError.
Proof.
  let parsed :=
    eval vm_compute in
      (Expat.fromstring (position_info "3" "0:03:25" "NOT_IMPLEMENTED")) in
  match parsed with
  | Some ?dom =>
      apply (unparseable_metadata_raises_ParseError
               (stub (position_info "3" "0:03:25" "NOT_IMPLEMENTED"))
               Expat.fromstring living_room []
               (wire living_room GetCurrentTrackInfo
                  (body_of GetCurrentTrackInfo))
               {| content := position_info "3" "0:03:25" "NOT_IMPLEMENTED" |}
               dom "NOT_IMPLEMENTED")
  end;
    try (apply String.eqb_neq); vm_compute; reflexivity.
Defined.

Lemma only_True_mutes_or_lights_witness :
  (exists request body,
      log_after (mute (stub plain_error) (Int_ 1) living_room []) = [request]
      /\ data request = envelope body
      /\ is_infix "<DesiredMute>0</DesiredMute>" body
      /\ ~ is_infix "<DesiredMute>1</DesiredMute>" body)
  /\ (exists request body,
         log_after (status_light (stub plain_error) (Int_ 1) living_room [])
           = [request]
         /\ data request = envelope body
         /\ is_infix "<DesiredLEDState>Off</DesiredLEDState>" body
         /\ ~ is_infix "<DesiredLEDState>On</DesiredLEDState>" body).
Proof.
  apply (only_True_mutes_or_lights (stub plain_error) (Int_ 1) living_room []).
  discriminate.
Defined.

Lemma set_volume_forwards_every_int_witness :
  exists request body numeral,
    log_after (set_volume (stub plain_error) Expat.fromstring (-5)
                 living_room [])
      = [request]
    /\ data request = envelope body
    /\ Py.int numeral = Some (-5)%Z
    /\ is_infix ("<DesiredVolume>" ++ numeral ++ "</DesiredVolume>") body.
Proof.
  apply (set_volume_forwards_every_int (stub plain_error) Expat.fromstring
           (-5) living_room []).
  unfold sys_maxint. lia.
Defined.

Lemma calls_in_a_row_are_independent_witness :
  let speaker := stub (success_envelope Pause) in
  let ops := [Mutating Pause; Mutating (SetVolume 37); Mutating Pause] in
  fst (fst (call_all speaker Expat.fromstring ops living_room []))
  = map (fun op => result (call speaker Expat.fromstring op living_room []))
      ops.
Proof.
  intros speaker ops.
  apply (calls_in_a_row_are_independent speaker Expat.fromstring ops
           living_room []).
  reflexivity.
Defined.

Lemma documented_requests_are_well_formed_witness :
  exists request action,
    log_after (call (stub plain_error) Expat.fromstring
                 (Mutating (SetVolume 37)) living_room [])
      = [request]
    /\ action_element (data request) = Some action
    /\ tag action
       = Expat.clark (service_of (Mutating (SetVolume 37)))
           (action_of (Mutating (SetVolume 37)))
    /\ findtext action ".//InstanceID" = Some "0".
Proof.
  apply (documented_requests_are_well_formed (stub plain_error)
           Expat.fromstring (Mutating (SetVolume 37)) living_room []).
  reflexivity.
Defined.

Lemma arguments_read_back_witness :
  (exists request action,
      log_after (set_volume (stub plain_error) Expat.fromstring 37
                   living_room [])
        = [request]
      /\ action_element (data request) = Some action
      /\ int_argument action ".//DesiredVolume" = Some 37%Z
      /\ findtext action ".//Channel" = Some "Master")
  /\ (exists request action,
         log_after (mute (stub plain_error) (Bool_ true) living_room [])
           = [request]
         /\ action_element (data request) = Some action
         /\ findtext action ".//DesiredMute" = Some "1"
         /\ findtext action ".//Channel" = Some "Master").
Proof.
  apply (arguments_read_back (stub plain_error) Expat.fromstring 37
           (Bool_ true) living_room []).
  lia.
Defined.
